(** * DatoImage: a shallow embedding of [src/components/DatoImage.ts]

    The Vue component is embedded as
    - a data model ([ImageData], [Props], the refs of [setup] as [State]),
    - the computed values of [setup] ([shouldAddImage], [shouldShowImage],
      [height], [transition], [svg]),
    - the render function, producing a tree of [VNode]s, and
    - the lifecycle hooks and callbacks as handlers on [State] that report
      the calls they make on the platform's IntersectionObserver.

    JavaScript numbers are IEEE 754 binary64 values ([spec_float] with
    precision 53 and maximal exponent 1024); JavaScript objects used as
    style and attribute maps are [gmap]s keyed by strings. *)

From Stdlib Require Import ZArith Bool List String Ascii DecimalString.
From Stdlib Require Import Floats.SpecFloat.
From stdpp Require Import gmap strings.

Local Open Scope string_scope.

(** ** JavaScript primitives *)

Module Js.

(** Numbers: binary64. *)
Definition number : Type := spec_float.
Definition prec : Z := 53.
Definition emax : Z := 1024.

(** A numeric literal with an integral value. *)
Definition of_Z (z : Z) : number := binary_normalize prec emax z 0 false.

(** The [/] operator on numbers. *)
Definition div (x y : number) : number := SFdiv prec emax x y.

(** [x === 0]; holds of both zeros and never of NaN. *)
Definition is_zero (x : number) : bool := SFeqb x (of_Z 0).

Definition is_nan (x : number) : bool :=
  match x with S754_nan => true | _ => false end.

(** [0 < x]. *)
Definition is_positive (x : number) : bool := SFltb (of_Z 0) x.

(** The values that flow through the component. *)
Inductive value : Type :=
| VUndefined
| VNull
| VString (s : string)
| VNumber (x : number).

(** ToBoolean. *)
Definition number_truthy (x : number) : bool :=
  match x with
  | S754_zero _ | S754_nan => false
  | S754_infinity _ | S754_finite _ _ _ => true
  end.

Definition string_truthy (s : string) : bool :=
  match s with EmptyString => false | String _ _ => true end.

Definition truthy (v : value) : bool :=
  match v with
  | VUndefined | VNull => false
  | VString s => string_truthy s
  | VNumber x => number_truthy x
  end.

(** An optional property of an object: absent reads as [undefined]. *)
Definition opt_string (o : option string) : value :=
  match o with Some s => VString s | None => VUndefined end.

Definition opt_number (o : option number) : value :=
  match o with Some x => VNumber x | None => VUndefined end.

(** [a || b]. *)
Definition or_else (a b : value) : value := if truthy a then a else b.

(** The integer a finite number denotes, when it denotes one. *)
Definition integral_value (x : number) : option Z :=
  match x with
  | S754_zero _ => Some 0%Z
  | S754_finite s m e =>
      let sign := fun z : Z => if s then Z.opp z else z in
      match e with
      | Z0 => Some (sign (Zpos m))
      | Zpos k => Some (sign (Z.shiftl (Zpos m) (Zpos k)))
      | Zneg k =>
          if Z.eqb (Z.land (Zpos m) (Z.ones (Zpos k))) 0
          then Some (sign (Z.shiftr (Zpos m) (Zpos k)))
          else None
      end
  | _ => None
  end.

Definition decimal (z : Z) : string :=
  match z with
  | Z0 => "0"
  | Zpos p => NilZero.string_of_uint (Pos.to_uint p)
  | Zneg p => "-" ++ NilZero.string_of_uint (Pos.to_uint p)
  end.

Section ToString.

(** Number::toString on the finite numbers that are not integers below
    2^53 prints the shortest digits that read back as the same number;
    that printer is the engine's and is taken as given. *)
Variable shortest_digits : number -> string.

(** Number::toString, as a template literal applies it. *)
Definition number_to_string (x : number) : string :=
  match x with
  | S754_nan => "NaN"
  | S754_infinity false => "Infinity"
  | S754_infinity true => "-Infinity"
  | S754_zero _ => "0"
  | S754_finite _ _ _ =>
      match integral_value x with
      | Some z =>
          if Z.ltb (Z.abs z) (2 ^ 53) then decimal z else shortest_digits x
      | None => shortest_digits x
      end
  end.

(** ToString of a value inside a template literal. *)
Definition to_string (v : value) : string :=
  match v with
  | VUndefined => "undefined"
  | VNull => "null"
  | VString s => s
  | VNumber x => number_to_string x
  end.

End ToString.

(** *** Object literals

    An object literal is a sequence of members, each a field or a spread;
    members are written left to right, so a later member replaces an
    earlier one of the same name. *)
Inductive member (V : Type) : Type :=
| Field (k : string) (v : V)
| Spread (o : gmap string V).
Arguments Field {V} k v.
Arguments Spread {V} o.

Definition write {V} (acc : gmap string V) (m : member V) : gmap string V :=
  match m with
  | Field k v => <[k := v]> acc
  | Spread o => o ∪ acc
  end.

Definition object {V} (ms : list (member V)) : gmap string V :=
  fold_left write ms ∅.

(** What one member says about the name [k]. *)
Definition member_lookup {V} (k : string) (m : member V) : option V :=
  match m with
  | Field k' v => if decide (k' = k) then Some v else None
  | Spread o => o !! k
  end.

(** The last member that mentions [k] decides it. *)
Definition last_write {V} (k : string) (ms : list (member V)) (dflt : option V)
  : option V :=
  fold_left
    (fun r m => match member_lookup k m with Some v => Some v | None => r end)
    ms dflt.

(** *** base64 over byte strings ([btoa]) *)
Definition b64_alphabet : string :=
  "ABCDEFGHIJKLMNOPQRSTUVWXYZabcdefghijklmnopqrstuvwxyz0123456789+/".

Definition b64_digit (n : N) : ascii :=
  match String.get (N.to_nat n) b64_alphabet with
  | Some c => c
  | None => "="%char
  end.

Fixpoint base64 (s : string) : string :=
  match s with
  | EmptyString => EmptyString
  | String a EmptyString =>
      let x := N_of_ascii a in
      String (b64_digit (x / 4))
        (String (b64_digit (x mod 4 * 16)) "==")
  | String a (String b EmptyString) =>
      let x := N_of_ascii a in
      let y := N_of_ascii b in
      String (b64_digit (x / 4))
        (String (b64_digit (x mod 4 * 16 + y / 16))
           (String (b64_digit (y mod 16 * 4)) "="))
  | String a (String b (String c rest)) =>
      let x := N_of_ascii a in
      let y := N_of_ascii b in
      let z := N_of_ascii c in
      String (b64_digit (x / 4))
        (String (b64_digit (x mod 4 * 16 + y / 16))
           (String (b64_digit (y mod 16 * 4 + z / 64))
              (String (b64_digit (z mod 64)) (base64 rest))))
  end.

End Js.

Import Js.

(** ** The platform: DOM elements and IntersectionObserver *)

Inductive HTMLElement : Type := DomElement (id : nat).

Record IntersectionObserverEntry : Type :=
  { isIntersecting : bool }.

Record IntersectionObserverInit : Type :=
  { threshold : number;
    rootMargin : string }.

Inductive Exception : Type :=
| ReferenceError
| TypeError
| SyntaxError
| RangeError.

(** An observer holds its options and the elements it watches. *)
Record IntersectionObserver : Type :=
  { io_init : IntersectionObserverInit;
    io_targets : list HTMLElement }.

(** A threshold must be a finite number between 0 and 1. *)
Definition is_finite (x : number) : bool :=
  match x with
  | S754_zero _ | S754_finite _ _ _ => true
  | S754_infinity _ | S754_nan => false
  end.

Definition threshold_in_range (x : number) : bool :=
  SFleb (of_Z 0) x && SFleb x (of_Z 1).

(** Why the constructor refuses its options, if it does: a threshold that
    is no finite number is a TypeError, a root margin that the platform's
    parser does not accept is a SyntaxError, and a threshold outside 0..1 is
    a RangeError.  The parser of root margins is the platform's. *)
Definition construction_error (accepts_rootMargin : string -> bool)
    (init : IntersectionObserverInit) : option Exception :=
  if negb (is_finite (threshold init)) then Some TypeError
  else if negb (accepts_rootMargin (rootMargin init)) then Some SyntaxError
  else if negb (threshold_in_range (threshold init)) then Some RangeError
  else None.

(** [new IntersectionObserver(callback, init)]: an exception, or an
    observer that watches nothing yet. *)
Definition IntersectionObserver_new (accepts_rootMargin : string -> bool)
    (init : IntersectionObserverInit) : Exception + IntersectionObserver :=
  match construction_error accepts_rootMargin init with
  | Some e => inl e
  | None => inr {| io_init := init; io_targets := [] |}
  end.

Definition IntersectionObserver_observe (e : HTMLElement) (o : IntersectionObserver)
  : IntersectionObserver :=
  {| io_init := io_init o; io_targets := e :: io_targets o |}.

(** [disconnect] stops watching every target; it has no failure case,
    whatever the observer's targets are. *)
Definition IntersectionObserver_disconnect (o : IntersectionObserver)
  : IntersectionObserver :=
  {| io_init := io_init o; io_targets := [] |}.

(** The calls a handler makes on the platform, in order. *)
Inductive PlatformCall : Type :=
| CallNew (init : IntersectionObserverInit)
| CallObserve (e : HTMLElement)
| CallDisconnect.

Definition is_disconnect (c : PlatformCall) : bool :=
  match c with CallDisconnect => true | _ => false end.

Definition disconnects (cs : list PlatformCall) : nat :=
  length (filter (fun c => is_disconnect c = true) cs).

(** The global object of a browser; [None] for [window] stands for
    [typeof window === "undefined"]. *)
Record Window : Type :=
  { has_IntersectionObserver : bool }.

(** ** Data model *)

Module ImageData.
Record t : Type :=
  { aspectRatio : number;
    width : number;
    base64 : option string;
    height : option number;
    sizes : option string;
    src : string;
    srcSet : option string;
    webpSrcSet : option string;
    bgColor : option string;
    alt : string;
    title : string }.
End ImageData.

Record Props : Type :=
  { data : ImageData.t;
    pictureClass : option string;
    fadeInDuration : number;
    intersectionTreshold : number;
    intersectionMargin : string;
    lazyLoad : bool;
    pictureStyle : gmap string value;
    rootStyle : gmap string value;
    explicitWidth : bool }.

(** The props of a component that is given only [data]. *)
Definition default_props (d : ImageData.t) : Props :=
  {| data := d;
     pictureClass := None;
     fadeInDuration := of_Z 500;
     intersectionTreshold := of_Z 0;
     intersectionMargin := "0px 0px 0px 0px";
     lazyLoad := true;
     pictureStyle := ∅;
     rootStyle := ∅;
     explicitWidth := false |}.

(** The refs created by [setup]. *)
Record State : Type :=
  { observer : option IntersectionObserver;
    el : option HTMLElement;
    inView : bool;
    loaded : bool }.

Definition setup_state : State :=
  {| observer := None; el := None; inView := false; loaded := false |}.

Definition set_observer (o : option IntersectionObserver) (st : State) : State :=
  {| observer := o; el := el st; inView := inView st; loaded := loaded st |}.

Definition set_el (e : option HTMLElement) (st : State) : State :=
  {| observer := observer st; el := e; inView := inView st; loaded := loaded st |}.

Definition set_inView (b : bool) (st : State) : State :=
  {| observer := observer st; el := el st; inView := b; loaded := loaded st |}.

Definition set_loaded (b : bool) (st : State) : State :=
  {| observer := observer st; el := el st; inView := inView st; loaded := b |}.

(** What running a handler leaves behind: the refs, the platform calls it
    made, and the exception that ended it, if any. *)
Record Outcome : Type :=
  { next : State;
    calls : list PlatformCall;
    thrown : option Exception }.

Definition returns (st : State) (cs : list PlatformCall) : Outcome :=
  {| next := st; calls := cs; thrown := None |}.

Definition throws (e : Exception) (st : State) : Outcome :=
  {| next := st; calls := []; thrown := Some e |}.

(** ** The render tree *)

Inductive Handler : Type := HandlerLoad.
Inductive TemplateRef : Type := RefEl.

Inductive PropValue : Type :=
| PVal (v : value)
| PStyle (s : gmap string value)
| PHandler (f : Handler)
| PRef (r : TemplateRef).

(** [h(tag, props, children)]; a [null] child is [None]. *)
#[local] Set Warnings "-register-all".
Inductive VNode : Type :=
| h (tag : string) (props : option (gmap string PropValue))
    (children : list (option VNode)).

Definition vnode_tag (v : VNode) : string :=
  match v with h t _ _ => t end.

Definition vnode_props (v : VNode) : gmap string PropValue :=
  match v with
  | h _ (Some ps) _ => ps
  | h _ None _ => ∅
  end.

Definition vnode_children (v : VNode) : list (option VNode) :=
  match v with h _ _ cs => cs end.

(** The children that are rendered: [null] entries produce nothing. *)
Definition vnode_elements (v : VNode) : list VNode :=
  omap id (vnode_children v).

Definition vnode_style (v : VNode) : gmap string value :=
  match vnode_props v !! "style" with
  | Some (PStyle s) => s
  | _ => ∅
  end.

Definition vnode_child (i : nat) (v : VNode) : option VNode :=
  match vnode_children v !! i with
  | Some (Some c) => Some c
  | _ => None
  end.

(** The node reached by taking the children at the given positions. *)
Fixpoint vnode_at (path : list nat) (v : VNode) : option VNode :=
  match path with
  | [] => Some v
  | i :: rest =>
      match vnode_child i v with
      | Some c => vnode_at rest c
      | None => None
      end
  end.

Definition style_at (path : list nat) (v : VNode) : gmap string value :=
  match vnode_at path v with
  | Some n => vnode_style n
  | None => ∅
  end.

(** Positions in the tree that [render] returns. *)
Definition at_root : list nat := [].
Definition at_placeholder : list nat := [0].
Definition at_background : list nat := [1].
Definition at_picture : list nat := [2].
Definition at_picture_img : list nat := [2; 2].
Definition at_noscript_picture : list nat := [3; 0].
Definition at_noscript_img : list nat := [3; 0; 2].

Definition dquote : string := String (ascii_of_nat 34) EmptyString.

Definition absolutePositioning : gmap string value :=
  object
    [ Field "position" (VString "absolute");
      Field "left" (VString "0px");
      Field "top" (VString "0px");
      Field "width" (VString "100%");
      Field "height" (VString "100%") ].

(** [window.btoa] and [Buffer.from(s, "binary").toString("base64")] both
    give the base64 encoding of the bytes of [s]. *)
Definition window_btoa (s : string) : string := base64 s.
Definition Buffer_binary_base64 (s : string) : string := base64 s.

Definition universalBtoa (isSsr : bool) (str : string) : string :=
  if isSsr then Buffer_binary_base64 str else window_btoa str.

(** ** The component *)

Section Component.

(** The runtime the module is loaded in: its global [window], if any, and
    the engine's printer of non-integral numbers. *)
Variable window : option Window.
Variable shortest_digits : number -> string.

(** The platform's parser of root margins: whether it accepts a string. *)
Variable accepts_rootMargin : string -> bool.

Definition str (x : number) : string := number_to_string shortest_digits x.

(** [typeof window === "undefined"]. *)
Definition isSsr : bool :=
  match window with None => true | Some _ => false end.

(** *** Computed values of [setup] *)

Definition shouldAddImage (props : Props) (st : State) : bool :=
  if negb (lazyLoad props) then true
  else
    match window with
    | None => false
    | Some w =>
        if has_IntersectionObserver w then inView st || loaded st
        else true
    end.

Definition shouldShowImage (props : Props) (st : State) : bool :=
  if negb (lazyLoad props) then true
  else
    match window with
    | None => false
    | Some w =>
        if has_IntersectionObserver w then loaded st
        else true
    end.

(** [props.data.height || props.data.width / props.data.aspectRatio] *)
Definition height (props : Props) : value :=
  or_else
    (opt_number (ImageData.height (data props)))
    (VNumber (div (ImageData.width (data props))
                  (ImageData.aspectRatio (data props)))).

Definition transition (props : Props) : value :=
  if number_truthy (fadeInDuration props)
  then VString ("opacity " ++ str (fadeInDuration props) ++ "ms "
                  ++ str (fadeInDuration props) ++ "ms")
  else VNull.

Definition svg (props : Props) : string :=
  "<svg xmlns=" ++ dquote ++ "http://www.w3.org/2000/svg" ++ dquote
    ++ " width=" ++ dquote ++ str (ImageData.width (data props)) ++ dquote
    ++ " height=" ++ dquote ++ to_string shortest_digits (height props) ++ dquote
    ++ "></svg>".

(** *** The render function *)

Definition rootStyleObject (props : Props) : gmap string value :=
  object
    [ Field "display"
        (VString (if explicitWidth props then "inline-block" else "block"));
      Field "overflow" (VString "hidden");
      Spread (rootStyle props);
      Field "position" (VString "relative") ].

Definition placeholderImg (props : Props) : VNode :=
  h "img"
    (Some (object
       [ Field "class" (PVal (opt_string (pictureClass props)));
         Field "style" (PStyle (object
           [ Field "display" (VString "block");
             Field "width"
               (VString (if explicitWidth props
                         then str (ImageData.width (data props)) ++ "px"
                         else "100%"));
             Spread (pictureStyle props) ]));
         Field "src"
           (PVal (VString ("data:image/svg+xml;base64,"
                             ++ universalBtoa isSsr (svg props))));
         Field "role" (PVal (VString "presentation")) ]))
    [].

Definition backgroundDiv (props : Props) (st : State) : VNode :=
  h "div"
    (Some (object
       [ Field "style" (PStyle (object
           [ Field "backgroundImage"
               (if truthy (opt_string (ImageData.base64 (data props)))
                then VString ("url("
                       ++ to_string shortest_digits
                            (opt_string (ImageData.base64 (data props)))
                       ++ ")")
                else VNull);
             Field "backgroundColor"
               (opt_string (ImageData.bgColor (data props)));
             Field "backgroundSize" (VString "cover");
             Field "opacity"
               (VNumber (if shouldShowImage props st then of_Z 0 else of_Z 1));
             Field "transition" (transition props);
             Spread absolutePositioning ])) ]))
    [].

Definition webpSource (props : Props) : option VNode :=
  if truthy (opt_string (ImageData.webpSrcSet (data props)))
  then Some (h "source"
    (Some (object
       [ Field "srcset" (PVal (opt_string (ImageData.webpSrcSet (data props))));
         Field "sizes" (PVal (opt_string (ImageData.sizes (data props))));
         Field "type" (PVal (VString "image/webp")) ]))
    [])
  else None.

Definition regularSource (props : Props) : option VNode :=
  if truthy (opt_string (ImageData.srcSet (data props)))
  then Some (h "source"
    (Some (object
       [ Field "srcset" (PVal (opt_string (ImageData.srcSet (data props))));
         Field "sizes" (PVal (opt_string (ImageData.sizes (data props)))) ]))
    [])
  else None.

Definition pictureImg (props : Props) (st : State) : VNode :=
  h "img"
    (Some (object
       [ Field "src" (PVal (VString (ImageData.src (data props))));
         Field "alt" (PVal (VString (ImageData.alt (data props))));
         Field "title" (PVal (VString (ImageData.title (data props))));
         Field "onLoad" (PHandler HandlerLoad);
         Field "class" (PVal (opt_string (pictureClass props)));
         Field "style" (PStyle (object
           [ Spread absolutePositioning;
             Spread (pictureStyle props);
             Field "opacity"
               (VNumber (if shouldShowImage props st then of_Z 1 else of_Z 0));
             Field "transition" (transition props) ])) ]))
    [].

Definition noscriptImg (props : Props) : VNode :=
  h "img"
    (Some (object
       [ Field "src" (PVal (VString (ImageData.src (data props))));
         Field "alt" (PVal (VString (ImageData.alt (data props))));
         Field "title" (PVal (VString (ImageData.title (data props))));
         Field "class" (PVal (opt_string (pictureClass props)));
         Field "style" (PStyle (object
           [ Spread (pictureStyle props);
             Spread absolutePositioning ]));
         Field "loading" (PVal (VString "lazy")) ]))
    [].

Definition render (props : Props) (st : State) : VNode :=
  h "div"
    (Some (object
       [ Field "style" (PStyle (rootStyleObject props));
         Field "ref" (PRef RefEl) ]))
    [ Some (placeholderImg props);
      Some (backgroundDiv props st);
      (if shouldAddImage props st
       then Some (h "picture" None
              [ webpSource props;
                regularSource props;
                Some (pictureImg props st) ])
       else None);
      Some (h "noscript" None
        [ Some (h "picture" None
            [ webpSource props;
              regularSource props;
              Some (noscriptImg props) ]) ]) ].

(** *** Lifecycle hooks and callbacks *)

(** The callback given to [new IntersectionObserver]. *)
Definition intersectionCallback (entries : list IntersectionObserverEntry)
    (st : State) : Outcome :=
  match entries with
  | [] => throws TypeError st
  | image :: _ =>
      match (if isIntersecting image then observer st else None) with
      | Some o =>
          returns
            (set_observer (Some (IntersectionObserver_disconnect o))
               (set_inView true st))
            [CallDisconnect]
      | None => returns st []
      end
  end.

Definition onMounted (props : Props) (st : State) : Outcome :=
  match window with
  | None => throws ReferenceError st
  | Some w =>
      if has_IntersectionObserver w then
        let init :=
          {| threshold := intersectionTreshold props;
             rootMargin := intersectionMargin props |} in
        match IntersectionObserver_new accepts_rootMargin init with
        | inl e => {| next := st; calls := [CallNew init]; thrown := Some e |}
        | inr o =>
            match el st with
            | Some e =>
                returns
                  (set_observer (Some (IntersectionObserver_observe e o)) st)
                  [CallNew init; CallObserve e]
            | None => returns (set_observer (Some o) st) [CallNew init]
            end
        end
      else returns st []
  end.

Definition onBeforeUnmount (st : State) : Outcome :=
  match window with
  | None => throws ReferenceError st
  | Some w =>
      match (if has_IntersectionObserver w then observer st else None) with
      | Some o =>
          returns (set_observer (Some (IntersectionObserver_disconnect o)) st)
            [CallDisconnect]
      | None => returns st []
      end
  end.

Definition load (st : State) : Outcome :=
  returns (set_loaded true st) [].

(** What can happen to a component instance after [setup]: the renderer
    binds the root element to the [el] ref when it patches the tree, the
    hooks run, and the platform delivers intersection and load events. *)
Inductive Event : Type :=
| Patched (root : HTMLElement)
| Mounted
| Intersection (entries : list IntersectionObserverEntry)
| ImgLoad
| BeforeUnmount.

Definition dispatch (props : Props) (ev : Event) (st : State) : Outcome :=
  match ev with
  | Patched root => returns (set_el (Some root) st) []
  | Mounted => onMounted props st
  | Intersection entries => intersectionCallback entries st
  | ImgLoad => load st
  | BeforeUnmount => onBeforeUnmount st
  end.

(** Handlers run one after another on the event loop; an exception ends
    the handler that raised it and the loop goes on. *)
Fixpoint run (props : Props) (evs : list Event) (st : State)
  : State * list PlatformCall :=
  match evs with
  | [] => (st, [])
  | ev :: rest =>
      let o := dispatch props ev st in
      let '(st', cs) := run props rest (next o) in
      (st', (calls o ++ cs)%list)
  end.

(** An intersection report whose first entry is intersecting. *)
Definition qualifying (entries : list IntersectionObserverEntry) : bool :=
  match entries with
  | image :: _ => isIntersecting image
  | [] => false
  end.

(** *** The derivation table of the specification *)

Definition lacks_dom (runtime : option Window) : bool :=
  match runtime with None => true | Some _ => false end.

Definition supports_visibility_detection (runtime : option Window) : bool :=
  match runtime with
  | Some w => has_IntersectionObserver w
  | None => false
  end.

(** shouldMountRealImage, by the words of the specification. *)
Definition spec_shouldMountRealImage (lazy : bool) (runtime : option Window)
    (intersecting isLoaded : bool) : bool :=
  if negb lazy then true
  else if lacks_dom runtime then false
  else if supports_visibility_detection runtime then intersecting || isLoaded
  else true.

(** shouldRevealRealImage, by the words of the specification. *)
Definition spec_shouldRevealRealImage (lazy : bool) (runtime : option Window)
    (isLoaded : bool) : bool :=
  if negb lazy then true
  else if lacks_dom runtime then false
  else if supports_visibility_detection runtime then isLoaded
  else true.

(** A flag either keeps its value or goes from [false] to [true]. *)
Definition flag_step (before after : bool) : Prop :=
  after = before \/ (before = false /\ after = true).

(** Events other than the hooks and a qualifying intersection report. *)
Definition quiet (ev : Event) : bool :=
  match ev with
  | Patched _ | ImgLoad => true
  | Intersection entries => negb (qualifying entries)
  | Mounted | BeforeUnmount => false
  end.

(** The placeholder's markup for a printed width and height. *)
Definition svg_markup (w ht : string) : string :=
  "<svg xmlns=" ++ dquote ++ "http://www.w3.org/2000/svg" ++ dquote
    ++ " width=" ++ dquote ++ w ++ dquote
    ++ " height=" ++ dquote ++ ht ++ dquote
    ++ "></svg>".

(** *** Inputs used in the examples *)

Definition browser : option Window :=
  Some {| has_IntersectionObserver := true |}.

Definition legacy_browser : option Window :=
  Some {| has_IntersectionObserver := false |}.

Definition no_digits : number -> string := fun _ => EmptyString.

Definition example_data : ImageData.t :=
  {| ImageData.aspectRatio := of_Z 2;
     ImageData.width := of_Z 800;
     ImageData.base64 := None;
     ImageData.height := None;
     ImageData.sizes := None;
     ImageData.src := "a.jpg";
     ImageData.srcSet := None;
     ImageData.webpSrcSet := None;
     ImageData.bgColor := None;
     ImageData.alt := "x";
     ImageData.title := "x" |}.

Definition with_height (x : number) (d : ImageData.t) : ImageData.t :=
  {| ImageData.aspectRatio := ImageData.aspectRatio d;
     ImageData.width := ImageData.width d;
     ImageData.base64 := ImageData.base64 d;
     ImageData.height := Some x;
     ImageData.sizes := ImageData.sizes d;
     ImageData.src := ImageData.src d;
     ImageData.srcSet := ImageData.srcSet d;
     ImageData.webpSrcSet := ImageData.webpSrcSet d;
     ImageData.bgColor := ImageData.bgColor d;
     ImageData.alt := ImageData.alt d;
     ImageData.title := ImageData.title d |}.

Definition with_styles (root picture : gmap string value) (p : Props) : Props :=
  {| data := data p;
     pictureClass := pictureClass p;
     fadeInDuration := fadeInDuration p;
     intersectionTreshold := intersectionTreshold p;
     intersectionMargin := intersectionMargin p;
     lazyLoad := lazyLoad p;
     pictureStyle := picture;
     rootStyle := root;
     explicitWidth := explicitWidth p |}.

Definition with_explicitWidth (b : bool) (p : Props) : Props :=
  {| data := data p;
     pictureClass := pictureClass p;
     fadeInDuration := fadeInDuration p;
     intersectionTreshold := intersectionTreshold p;
     intersectionMargin := intersectionMargin p;
     lazyLoad := lazyLoad p;
     pictureStyle := pictureStyle p;
     rootStyle := rootStyle p;
     explicitWidth := b |}.

Definition with_fadeInDuration (x : number) (p : Props) : Props :=
  {| data := data p;
     pictureClass := pictureClass p;
     fadeInDuration := x;
     intersectionTreshold := intersectionTreshold p;
     intersectionMargin := intersectionMargin p;
     lazyLoad := lazyLoad p;
     pictureStyle := pictureStyle p;
     rootStyle := rootStyle p;
     explicitWidth := explicitWidth p |}.

Definition example_props : Props := default_props example_data.

Definition red_styles : gmap string value :=
  object [ Field "color" (VString "red") ].

Definition static_positioned : gmap string value :=
  object [ Field "position" (VString "static") ].

Definition seen : list IntersectionObserverEntry :=
  [ {| isIntersecting := true |} ].

Definition in_view_state : State := set_inView true setup_state.

Definition styled_props : Props :=
  with_styles red_styles red_styles example_props.

Definition repositioned_props : Props :=
  with_styles static_positioned static_positioned example_props.

Definition tall_props : Props :=
  default_props (with_height (of_Z 300) example_data).

Definition mounted_root : State := set_el (Some (DomElement 0)) setup_state.

Definition unseen : list IntersectionObserverEntry :=
  [ {| isIntersecting := false |} ].

(** *** The override rule, as the specification words it

    Every entry of the caller's [rootStyle] is in the root's final style,
    and every entry of the caller's [pictureStyle] is in the final style
    of the placeholder image, of the real image (when mounted) and of the
    no-script image. *)
Definition caller_entries_override (props : Props) (st : State) : Prop :=
  (forall k v,
     rootStyle props !! k = Some v ->
     style_at at_root (render props st) !! k = Some v)
  /\ (forall k v,
        pictureStyle props !! k = Some v ->
        style_at at_placeholder (render props st) !! k = Some v)
  /\ (forall k v,
        pictureStyle props !! k = Some v ->
        shouldAddImage props st = true ->
        style_at at_picture_img (render props st) !! k = Some v)
  /\ (forall k v,
        pictureStyle props !! k = Some v ->
        style_at at_noscript_img (render props st) !! k = Some v).

(** *** Vocabulary for the lifecycle and the sources *)

Definition is_qualifying (ev : Event) : bool :=
  match ev with
  | Intersection entries => qualifying entries
  | _ => false
  end.

Definition is_unmount (ev : Event) : bool :=
  match ev with BeforeUnmount => true | _ => false end.

Definition is_mount (ev : Event) : bool :=
  match ev with Mounted => true | _ => false end.

(** The observer in the [observer] ref watches no element. *)
Definition released (st : State) : Prop :=
  exists o, observer st = Some o /\ io_targets o = [].

Definition count_events (f : Event -> bool) (evs : list Event) : nat :=
  length (List.filter f evs).

(** An optional string that is present and not empty. *)
Definition nonempty (o : option string) : bool :=
  match o with
  | Some (String _ _) => true
  | Some EmptyString | None => false
  end.

(** The options that [onMounted] passes to the observer. *)
Definition configured_init (props : Props) : IntersectionObserverInit :=
  {| threshold := intersectionTreshold props;
     rootMargin := intersectionMargin props |}.

Definition with_lazyLoad (b : bool) (p : Props) : Props :=
  {| data := data p;
     pictureClass := pictureClass p;
     fadeInDuration := fadeInDuration p;
     intersectionTreshold := intersectionTreshold p;
     intersectionMargin := intersectionMargin p;
     lazyLoad := b;
     pictureStyle := pictureStyle p;
     rootStyle := rootStyle p;
     explicitWidth := explicitWidth p |}.

Definition with_data (d : ImageData.t) (p : Props) : Props :=
  {| data := d;
     pictureClass := pictureClass p;
     fadeInDuration := fadeInDuration p;
     intersectionTreshold := intersectionTreshold p;
     intersectionMargin := intersectionMargin p;
     lazyLoad := lazyLoad p;
     pictureStyle := pictureStyle p;
     rootStyle := rootStyle p;
     explicitWidth := explicitWidth p |}.

Definition with_aspectRatio (x : number) (d : ImageData.t) : ImageData.t :=
  {| ImageData.aspectRatio := x;
     ImageData.width := ImageData.width d;
     ImageData.base64 := ImageData.base64 d;
     ImageData.height := ImageData.height d;
     ImageData.sizes := ImageData.sizes d;
     ImageData.src := ImageData.src d;
     ImageData.srcSet := ImageData.srcSet d;
     ImageData.webpSrcSet := ImageData.webpSrcSet d;
     ImageData.bgColor := ImageData.bgColor d;
     ImageData.alt := ImageData.alt d;
     ImageData.title := ImageData.title d |}.

Definition with_srcSets (webp regular : option string) (d : ImageData.t)
  : ImageData.t :=
  {| ImageData.aspectRatio := ImageData.aspectRatio d;
     ImageData.width := ImageData.width d;
     ImageData.base64 := ImageData.base64 d;
     ImageData.height := ImageData.height d;
     ImageData.sizes := ImageData.sizes d;
     ImageData.src := ImageData.src d;
     ImageData.srcSet := regular;
     ImageData.webpSrcSet := webp;
     ImageData.bgColor := ImageData.bgColor d;
     ImageData.alt := ImageData.alt d;
     ImageData.title := ImageData.title d |}.

Definition loaded_state : State := set_loaded true setup_state.

Definition flat_props : Props :=
  default_props (with_aspectRatio (of_Z 0) example_data).

Definition observing_state : State :=
  set_observer
    (Some (IntersectionObserver_observe (DomElement 0)
             {| io_init := configured_init example_props; io_targets := [] |}))
    mounted_root.

(** The constructor accepts the options that [onMounted] passes it. *)
Definition options_accepted (props : Props) : bool :=
  match construction_error accepts_rootMargin (configured_init props) with
  | None => true
  | Some _ => false
  end.

(** A property of the node at a place in the tree. *)
Definition prop_at (path : list nat) (k : string) (v : VNode)
  : option PropValue :=
  match vnode_at path v with
  | Some n => vnode_props n !! k
  | None => None
  end.

(** The [src] of the placeholder image for a given markup. *)
Definition placeholder_src (markup : string) : PropValue :=
  PVal (VString ("data:image/svg+xml;base64," ++ base64 markup)).

Definition with_threshold (x : number) (p : Props) : Props :=
  {| data := data p;
     pictureClass := pictureClass p;
     fadeInDuration := fadeInDuration p;
     intersectionTreshold := x;
     intersectionMargin := intersectionMargin p;
     lazyLoad := lazyLoad p;
     pictureStyle := pictureStyle p;
     rootStyle := rootStyle p;
     explicitWidth := explicitWidth p |}.

(** *** A parser of root margins for the examples

    At most four tokens separated by spaces, each a decimal number
    followed by [px] or [%]. *)
Definition is_digit (c : ascii) : bool :=
  (48 <=? nat_of_ascii c)%nat && (nat_of_ascii c <=? 57)%nat.

Fixpoint drop_digits (s : string) : string :=
  match s with
  | String c rest => if is_digit c then drop_digits rest else s
  | EmptyString => s
  end.

Definition margin_token (s : string) : bool :=
  let unsigned :=
    match s with
    | String c rest =>
        if Ascii.eqb c "-" || Ascii.eqb c "+" then rest else s
    | EmptyString => s
    end in
  let after_digits := drop_digits unsigned in
  let after_fraction :=
    match after_digits with
    | String c rest => if Ascii.eqb c "." then drop_digits rest else after_digits
    | EmptyString => after_digits
    end in
  (String.length after_digits <? String.length unsigned)%nat
  && (String.eqb after_fraction "px" || String.eqb after_fraction "%").

Fixpoint split_on_spaces (s : string) (word : string) : list string :=
  match s with
  | EmptyString => [word]
  | String c rest =>
      if Ascii.eqb c " "
      then word :: split_on_spaces rest EmptyString
      else split_on_spaces rest (word ++ String c EmptyString)
  end.

Definition px_or_percent_margins (s : string) : bool :=
  let tokens :=
    List.filter string_truthy (split_on_spaces s EmptyString) in
  (length tokens <=? 4)%nat && forallb margin_token tokens.

(** ** Properties *)

(** *** Object literals *)

Lemma lookup_write {V} (acc : gmap string V) (m : member V) (k : string) :
  write acc m !! k =
  match member_lookup k m with Some v => Some v | None => acc !! k end.
Proof.
  destruct m as [k' v|o]; simpl.
  - rewrite lookup_insert. destruct (decide (k' = k)); reflexivity.
  - rewrite lookup_union. destruct (o !! k), (acc !! k); reflexivity.
Qed.

Lemma lookup_fold_write {V} (ms : list (member V)) (acc : gmap string V)
    (k : string) :
  fold_left write ms acc !! k = last_write k ms (acc !! k).
Proof.
  revert acc. induction ms as [|m ms IH]; intros acc; simpl.
  - reflexivity.
  - rewrite IH, lookup_write. reflexivity.
Qed.

Lemma lookup_object {V} (ms : list (member V)) (k : string) :
  object ms !! k = last_write k ms None.
Proof. unfold object. rewrite lookup_fold_write, lookup_empty. reflexivity. Qed.

(** *** Where the parts of the tree are *)

Lemma render_root_style props st :
  style_at at_root (render props st) = rootStyleObject props.
Proof.
  unfold style_at, vnode_style, render; simpl.
  rewrite lookup_object. reflexivity.
Qed.

Lemma render_placeholder props st :
  vnode_at at_placeholder (render props st) = Some (placeholderImg props).
Proof. reflexivity. Qed.

Lemma render_background props st :
  vnode_at at_background (render props st) = Some (backgroundDiv props st).
Proof. reflexivity. Qed.

Lemma render_picture_img props st :
  vnode_at at_picture_img (render props st) =
  if shouldAddImage props st then Some (pictureImg props st) else None.
Proof.
  unfold render, at_picture_img; simpl.
  unfold vnode_child; simpl.
  destruct (shouldAddImage props st); reflexivity.
Qed.

Lemma render_noscript_img props st :
  vnode_at at_noscript_img (render props st) = Some (noscriptImg props).
Proof. reflexivity. Qed.

Lemma placeholder_style props k :
  vnode_style (placeholderImg props) !! k =
  last_write k
    [ Field "display" (VString "block");
      Field "width"
        (VString (if explicitWidth props
                  then str (ImageData.width (data props)) ++ "px"
                  else "100%"));
      Spread (pictureStyle props) ] None.
Proof.
  unfold vnode_style, placeholderImg; simpl.
  rewrite lookup_object; simpl. rewrite lookup_object. reflexivity.
Qed.

Lemma background_style props st k :
  vnode_style (backgroundDiv props st) !! k =
  match absolutePositioning !! k with
  | Some v => Some v
  | None =>
      last_write k
        [ Field "opacity"
            (VNumber (if shouldShowImage props st then of_Z 0 else of_Z 1));
          Field "transition" (transition props) ]
        (last_write k
           [ Field "backgroundImage"
               (if truthy (opt_string (ImageData.base64 (data props)))
                then VString ("url("
                       ++ to_string shortest_digits
                            (opt_string (ImageData.base64 (data props)))
                       ++ ")")
                else VNull);
             Field "backgroundColor"
               (opt_string (ImageData.bgColor (data props)));
             Field "backgroundSize" (VString "cover") ] None)
  end.
Proof.
  unfold vnode_style, backgroundDiv; simpl.
  rewrite lookup_object; simpl. rewrite lookup_object; simpl.
  reflexivity.
Qed.

Lemma picture_img_style props st k :
  vnode_style (pictureImg props st) !! k =
  last_write k
    [ Spread absolutePositioning;
      Spread (pictureStyle props);
      Field "opacity"
        (VNumber (if shouldShowImage props st then of_Z 1 else of_Z 0));
      Field "transition" (transition props) ] None.
Proof.
  unfold vnode_style, pictureImg; simpl.
  rewrite lookup_object; simpl. rewrite lookup_object. reflexivity.
Qed.

Lemma noscript_img_style props k :
  vnode_style (noscriptImg props) !! k =
  last_write k
    [ Spread (pictureStyle props); Spread absolutePositioning ] None.
Proof.
  unfold vnode_style, noscriptImg; simpl.
  rewrite lookup_object; simpl. rewrite lookup_object. reflexivity.
Qed.

(** *** Truthiness of numbers *)

Lemma number_truthy_spec (x : number) :
  number_truthy x = negb (is_zero x || is_nan x).
Proof. destruct x as [[]|[]| |[] m e]; reflexivity. Qed.

Lemma positive_truthy (x : number) :
  is_positive x = true -> number_truthy x = true.
Proof. destruct x as [[]|[]| |[] m e]; simpl; intros Hx; try reflexivity; discriminate Hx. Qed.

(** *** The two derived booleans *)

(** C2: [shouldAddImage] follows the table of the specification (true
    without lazy loading; else false without a window; else
    [inView || loaded] when IntersectionObserver is supported; else true),
    and the scripted picture element is in the tree exactly when it is
    true. *)
Theorem shouldAddImage_table props st :
  shouldAddImage props st =
    spec_shouldMountRealImage (lazyLoad props) window (inView st) (loaded st)
  /\ vnode_tag <$> vnode_at at_picture (render props st) =
     (if shouldAddImage props st then Some "picture" else None).
Proof.
  split.
  - unfold shouldAddImage, spec_shouldMountRealImage.
    destruct (lazyLoad props); simpl; [|reflexivity].
    destruct window as [w|]; simpl; [|reflexivity].
    destruct (has_IntersectionObserver w); reflexivity.
  - unfold render, at_picture; simpl. unfold vnode_child; simpl.
    destruct (shouldAddImage props st); reflexivity.
Qed.

(** C3: [shouldShowImage] follows the table of the specification (true
    without lazy loading; else false without a window; else [loaded]
    when IntersectionObserver is supported; else true); the background
    layer has opacity 1 while it is false and 0 once it is true, and the
    real image, when mounted, has the complementary opacity. *)
Theorem shouldShowImage_table props st :
  shouldShowImage props st =
    spec_shouldRevealRealImage (lazyLoad props) window (loaded st)
  /\ style_at at_background (render props st) !! "opacity" =
     Some (VNumber (if shouldShowImage props st then of_Z 0 else of_Z 1))
  /\ style_at at_picture_img (render props st) !! "opacity" =
     (if shouldAddImage props st
      then Some (VNumber (if shouldShowImage props st then of_Z 1 else of_Z 0))
      else None).
Proof.
  split; [|split].
  - unfold shouldShowImage, spec_shouldRevealRealImage.
    destruct (lazyLoad props); simpl; [|reflexivity].
    destruct window as [w|]; simpl; [|reflexivity].
    destruct (has_IntersectionObserver w); reflexivity.
  - unfold style_at. rewrite render_background, background_style.
    reflexivity.
  - unfold style_at. rewrite render_picture_img.
    destruct (shouldAddImage props st); [|apply lookup_empty].
    rewrite picture_img_style. reflexivity.
Qed.

(** *** Placeholder size *)

Lemma placeholder_src_in_tree props st :
  prop_at at_placeholder "src" (render props st)
  = Some (placeholder_src (svg props)).
Proof.
  unfold prop_at. rewrite render_placeholder.
  unfold placeholderImg, vnode_props. rewrite lookup_object; simpl.
  unfold placeholder_src, universalBtoa, Buffer_binary_base64, window_btoa.
  destruct isSsr; reflexivity.
Qed.

(** C5: without a height in the descriptor the placeholder's height is
    [width / aspectRatio]; with a positive height it is that height,
    whatever the aspect ratio.  In both cases the placeholder image in the
    tree has for [src] the data URI of the base64 of the svg markup that
    prints the width and that height. *)
Theorem placeholder_height props st :
  (ImageData.height (data props) = None ->
   height props =
     VNumber (div (ImageData.width (data props))
                  (ImageData.aspectRatio (data props)))
   /\ prop_at at_placeholder "src" (render props st) =
      Some (placeholder_src
              (svg_markup
                 (str (ImageData.width (data props)))
                 (str (div (ImageData.width (data props))
                           (ImageData.aspectRatio (data props)))))))
  /\ (forall x,
        ImageData.height (data props) = Some x ->
        is_positive x = true ->
        height props = VNumber x
        /\ prop_at at_placeholder "src" (render props st) =
           Some (placeholder_src
                   (svg_markup (str (ImageData.width (data props))) (str x))))
  /\ svg props =
     svg_markup (str (ImageData.width (data props)))
                (to_string shortest_digits (height props)).
Proof.
  split; [|split].
  - intros Hnone.
    assert (Hh : height props =
                 VNumber (div (ImageData.width (data props))
                              (ImageData.aspectRatio (data props)))).
    { unfold height. rewrite Hnone. reflexivity. }
    split; [exact Hh|].
    rewrite placeholder_src_in_tree. unfold svg. rewrite Hh. reflexivity.
  - intros x Hsome Hx.
    assert (Hh : height props = VNumber x).
    { unfold height. rewrite Hsome. unfold or_else; simpl.
      rewrite (positive_truthy x Hx). reflexivity. }
    split; [exact Hh|].
    rewrite placeholder_src_in_tree. unfold svg. rewrite Hh. reflexivity.
  - reflexivity.
Qed.

(** *** Fade-in transition *)

(** C7: a fade-in duration of 0 gives no transition string (the value is
    [null]); any other duration gives
    ["opacity <duration>ms <duration>ms"].  That value is the transition
    of the background layer and of the real image, when mounted.  A
    duration is a number of milliseconds; NaN, which is no duration, is
    falsy like 0, as the first equation records. *)
Theorem transition_string props st :
  transition props =
    (if is_zero (fadeInDuration props) || is_nan (fadeInDuration props)
     then VNull
     else VString ("opacity " ++ str (fadeInDuration props) ++ "ms "
                     ++ str (fadeInDuration props) ++ "ms"))
  /\ (is_zero (fadeInDuration props) = true -> transition props = VNull)
  /\ (is_zero (fadeInDuration props) = false ->
      is_nan (fadeInDuration props) = false ->
      transition props =
        VString ("opacity " ++ str (fadeInDuration props) ++ "ms "
                   ++ str (fadeInDuration props) ++ "ms"))
  /\ style_at at_background (render props st) !! "transition" =
     Some (transition props)
  /\ style_at at_picture_img (render props st) !! "transition" =
     (if shouldAddImage props st then Some (transition props) else None).
Proof.
  split; [|split; [|split; [|split]]].
  - unfold transition. rewrite number_truthy_spec.
    destruct (is_zero (fadeInDuration props) || is_nan (fadeInDuration props));
      reflexivity.
  - unfold transition. rewrite number_truthy_spec.
    intros ->. reflexivity.
  - unfold transition. rewrite number_truthy_spec.
    intros -> ->. reflexivity.
  - unfold style_at. rewrite render_background, background_style.
    reflexivity.
  - unfold style_at. rewrite render_picture_img.
    destruct (shouldAddImage props st); [|apply lookup_empty].
    rewrite picture_img_style. reflexivity.
Qed.

(** *** Explicit width *)

Lemma computed_display_and_width props st :
  rootStyle props !! "display" = None ->
  pictureStyle props !! "width" = None ->
  style_at at_root (render props st) !! "display" =
    Some (VString (if explicitWidth props then "inline-block" else "block"))
  /\ style_at at_placeholder (render props st) !! "width" =
     Some (VString (if explicitWidth props
                    then str (ImageData.width (data props)) ++ "px"
                    else "100%")).
Proof.
  intros Hroot Hpic. split.
  - rewrite render_root_style. unfold rootStyleObject.
    rewrite lookup_object; simpl. rewrite Hroot. reflexivity.
  - unfold style_at. rewrite render_placeholder, placeholder_style; simpl.
    rewrite Hpic. reflexivity.
Qed.

(** C8: for every descriptor, with [explicitWidth] the container is
    displayed [inline-block] and the placeholder image is ["<width>px"]
    wide; without it the container is displayed [block] and the
    placeholder is ["100%"] wide.  This holds with the other props at
    their defaults, and more generally whenever the caller's style objects
    do not themselves set [display] on the root or [width] on the
    picture. *)
Theorem explicit_width_styles :
  (forall d b st,
     style_at at_root
       (render (with_explicitWidth b (default_props d)) st) !! "display" =
       Some (VString (if b then "inline-block" else "block"))
     /\ style_at at_placeholder
          (render (with_explicitWidth b (default_props d)) st) !! "width" =
        Some (VString (if b then str (ImageData.width d) ++ "px" else "100%")))
  /\ (forall props st,
        rootStyle props !! "display" = None ->
        pictureStyle props !! "width" = None ->
        style_at at_root (render props st) !! "display" =
          Some (VString (if explicitWidth props then "inline-block" else "block"))
        /\ style_at at_placeholder (render props st) !! "width" =
           Some (VString (if explicitWidth props
                          then str (ImageData.width (data props)) ++ "px"
                          else "100%"))).
Proof.
  split.
  - intros d b st.
    apply (computed_display_and_width (with_explicitWidth b (default_props d)) st);
      apply lookup_empty.
  - apply computed_display_and_width.
Qed.

(** *** Sources *)

(** C9: for the descriptor [{width: 800, aspectRatio: 2, src: "a.jpg",
    alt: "x", title: "x"}] under the default configuration the
    placeholder's height is 400: the placeholder image in the tree has for
    [src] the data URI of the base64 of the svg markup with width 800 and
    height 400.  And whenever [srcSet] and [webpSrcSet]
    are absent, the no-script picture and the scripted picture (when
    mounted) hold no [source] element, only their [img]. *)
Theorem example_height_and_no_sources :
  (height example_props = VNumber (of_Z 400)
   /\ svg example_props = svg_markup "800" "400"
   /\ forall st,
        prop_at at_placeholder "src" (render example_props st)
        = Some (placeholder_src (svg_markup "800" "400"))
        /\ prop_at at_placeholder "src" (render example_props st)
           = Some (PVal (VString
               ("data:image/svg+xml;base64,"
                ++ "PHN2ZyB4bWxucz0iaHR0cDovL3d3dy53My5vcmcvMjAwMC9zdmciIHdp"
                ++ "ZHRoPSI4MDAiIGhlaWdodD0iNDAwIj48L3N2Zz4="))))
  /\ forall props st,
       ImageData.srcSet (data props) = None ->
       ImageData.webpSrcSet (data props) = None ->
       vnode_elements <$> vnode_at at_noscript_picture (render props st) =
         Some [noscriptImg props]
       /\ vnode_elements <$> vnode_at at_picture (render props st) =
          (if shouldAddImage props st then Some [pictureImg props st] else None)
       /\ vnode_tag (noscriptImg props) = "img"
       /\ vnode_tag (pictureImg props st) = "img".
Proof.
  split.
  { split; [vm_compute; reflexivity|].
    split; [vm_compute; reflexivity|].
    intros st. rewrite placeholder_src_in_tree.
    split; vm_compute; reflexivity. }
  intros props st Hsrc Hwebp.
  unfold render, at_noscript_picture, at_picture; simpl.
  unfold vnode_child; simpl.
  unfold webpSource, regularSource. rewrite Hsrc, Hwebp; simpl.
  repeat split.
  destruct (shouldAddImage props st); reflexivity.
Qed.

(** *** Style overrides *)

Lemma absolutePositioning_other k :
  k <> "position" -> k <> "left" -> k <> "top" ->
  k <> "width" -> k <> "height" ->
  absolutePositioning !! k = None.
Proof.
  intros Hposition Hleft Htop Hwidth Hheight.
  unfold absolutePositioning. rewrite lookup_object; simpl.
  repeat (destruct (decide _) as [E|_]; [congruence|]).
  reflexivity.
Qed.

(** C1, as the code has it: members of a style object are written in
    source order and the last one wins.  The caller's [rootStyle]
    replaces the root's computed [display] and [overflow] but not its
    [position], which is written after it and is always [relative].  The
    caller's [pictureStyle] replaces every computed entry of the
    placeholder image; on the real image it replaces the absolute
    positioning but not [opacity] and [transition], which are written
    after it; on the no-script image its entries are kept under every
    name that the absolute positioning does not define. *)
Theorem style_merge_order props st k v :
  (rootStyle props !! k = Some v -> k <> "position" ->
   style_at at_root (render props st) !! k = Some v)
  /\ style_at at_root (render props st) !! "position" =
     Some (VString "relative")
  /\ (pictureStyle props !! k = Some v ->
      style_at at_placeholder (render props st) !! k = Some v)
  /\ (pictureStyle props !! k = Some v ->
      k <> "opacity" -> k <> "transition" ->
      shouldAddImage props st = true ->
      style_at at_picture_img (render props st) !! k = Some v)
  /\ (shouldAddImage props st = true ->
      style_at at_picture_img (render props st) !! "opacity" =
        Some (VNumber (if shouldShowImage props st then of_Z 1 else of_Z 0))
      /\ style_at at_picture_img (render props st) !! "transition" =
         Some (transition props))
  /\ (pictureStyle props !! k = Some v ->
      k <> "position" -> k <> "left" -> k <> "top" ->
      k <> "width" -> k <> "height" ->
      style_at at_noscript_img (render props st) !! k = Some v).
Proof.
  split; [|split; [|split; [|split; [|split]]]].
  - intros Hk Hne. rewrite render_root_style. unfold rootStyleObject.
    rewrite lookup_object; simpl.
    destruct (decide ("position" = k)) as [E|_]; [congruence|].
    rewrite Hk. reflexivity.
  - rewrite render_root_style. unfold rootStyleObject.
    rewrite lookup_object. reflexivity.
  - intros Hk. unfold style_at.
    rewrite render_placeholder, placeholder_style; simpl.
    rewrite Hk. reflexivity.
  - intros Hk Ho Ht Hadd. unfold style_at.
    rewrite render_picture_img, Hadd, picture_img_style; simpl.
    destruct (decide ("transition" = k)) as [E|_]; [congruence|].
    destruct (decide ("opacity" = k)) as [E|_]; [congruence|].
    rewrite Hk. reflexivity.
  - intros Hadd. unfold style_at.
    rewrite render_picture_img, Hadd, !picture_img_style. split; reflexivity.
  - intros Hk Hposition Hleft Htop Hwidth Hheight. unfold style_at.
    rewrite render_noscript_img, noscript_img_style; simpl.
    rewrite (absolutePositioning_other k) by assumption.
    rewrite Hk. reflexivity.
Qed.

(** *** The state flags *)

Lemma flag_step_refl b : flag_step b b.
Proof. left. reflexivity. Qed.

Lemma flag_step_raise b : flag_step b true.
Proof. destruct b; [left|right]; auto. Qed.

Lemma flag_step_trans a b c : flag_step a b -> flag_step b c -> flag_step a c.
Proof.
  unfold flag_step. destruct a, b, c; intuition congruence.
Qed.

Lemma dispatch_flags props ev st :
  flag_step (inView st) (inView (next (dispatch props ev st)))
  /\ flag_step (loaded st) (loaded (next (dispatch props ev st))).
Proof.
  destruct ev as [root| |entries| |]; simpl.
  - split; apply flag_step_refl.
  - unfold onMounted. destruct window as [w|]; simpl.
    + destruct (has_IntersectionObserver w); simpl.
      * destruct (IntersectionObserver_new _ _); simpl;
          [|destruct (el st); simpl]; split; apply flag_step_refl.
      * split; apply flag_step_refl.
    + split; apply flag_step_refl.
  - unfold intersectionCallback. destruct entries as [|image rest]; simpl.
    + split; apply flag_step_refl.
    + destruct (isIntersecting image); simpl.
      * destruct (observer st); simpl; split;
          auto using flag_step_refl, flag_step_raise.
      * split; apply flag_step_refl.
  - split; auto using flag_step_refl, flag_step_raise.
  - unfold onBeforeUnmount. destruct window as [w|]; simpl.
    + destruct (has_IntersectionObserver w); simpl.
      * destruct (observer st); simpl; split; apply flag_step_refl.
      * split; apply flag_step_refl.
    + split; apply flag_step_refl.
Qed.

Lemma run_cons props ev evs st :
  run props (ev :: evs) st =
  (fst (run props evs (next (dispatch props ev st))),
   (calls (dispatch props ev st)
      ++ snd (run props evs (next (dispatch props ev st))))%list).
Proof.
  simpl. destruct (run props evs (next (dispatch props ev st))).
  reflexivity.
Qed.

Lemma run_app props evs1 evs2 st :
  run props (evs1 ++ evs2)%list st =
  (fst (run props evs2 (fst (run props evs1 st))),
   (snd (run props evs1 st)
      ++ snd (run props evs2 (fst (run props evs1 st))))%list).
Proof.
  revert st. induction evs1 as [|ev evs1 IH]; intros st.
  - simpl. destruct (run props evs2 st). reflexivity.
  - rewrite <- app_comm_cons, !run_cons, IH. simpl.
    rewrite app_assoc. reflexivity.
Qed.

Lemma run_flags props evs st :
  flag_step (inView st) (inView (fst (run props evs st)))
  /\ flag_step (loaded st) (loaded (fst (run props evs st))).
Proof.
  revert st. induction evs as [|ev evs IH]; intros st.
  - simpl. split; apply flag_step_refl.
  - rewrite run_cons; simpl.
    destruct (dispatch_flags props ev st) as [Hv Hl].
    destruct (IH (next (dispatch props ev st))) as [Hv' Hl'].
    split; eapply flag_step_trans; eassumption.
Qed.

(** C4: both flags start [false]; every handler, and so every sequence
    of handlers, leaves each flag as it was or takes it from [false] to
    [true].  Rendering is a function of the props and the refs and
    writes neither flag. *)
Theorem flags_monotonic :
  (inView setup_state = false /\ loaded setup_state = false)
  /\ (forall props ev st,
        flag_step (inView st) (inView (next (dispatch props ev st)))
        /\ flag_step (loaded st) (loaded (next (dispatch props ev st))))
  /\ (forall props evs st,
        flag_step (inView st) (inView (fst (run props evs st)))
        /\ flag_step (loaded st) (loaded (fst (run props evs st)))).
Proof.
  split; [split; reflexivity|].
  split; [apply dispatch_flags|apply run_flags].
Qed.

(** *** The observer over a lifecycle *)

Lemma disconnects_app cs1 cs2 :
  disconnects (cs1 ++ cs2)%list = disconnects cs1 + disconnects cs2.
Proof. unfold disconnects. rewrite filter_app, length_app. reflexivity. Qed.

(** No handler clears the [observer] ref. *)
Lemma dispatch_keeps_observer props ev st :
  is_Some (observer st) -> is_Some (observer (next (dispatch props ev st))).
Proof.
  intros [o Ho]. destruct ev as [root| |entries| |]; simpl.
  - rewrite Ho. eexists; reflexivity.
  - unfold onMounted. destruct window as [w|]; simpl;
      [|rewrite Ho; eexists; reflexivity].
    destruct (has_IntersectionObserver w); simpl;
      [|rewrite Ho; eexists; reflexivity].
    destruct (IntersectionObserver_new _ _); simpl;
      [rewrite Ho; eexists; reflexivity|].
    destruct (el st); simpl; eexists; reflexivity.
  - unfold intersectionCallback. destruct entries as [|image rest]; simpl.
    + rewrite Ho. eexists; reflexivity.
    + destruct (isIntersecting image); rewrite ?Ho; simpl; rewrite ?Ho;
        eexists; reflexivity.
  - rewrite Ho. eexists; reflexivity.
  - unfold onBeforeUnmount. destruct window as [w|]; simpl;
      [|rewrite Ho; eexists; reflexivity].
    destruct (has_IntersectionObserver w); rewrite ?Ho; simpl; rewrite ?Ho;
      eexists; reflexivity.
Qed.

Lemma run_keeps_observer props evs st :
  is_Some (observer st) -> is_Some (observer (fst (run props evs st))).
Proof.
  revert st. induction evs as [|ev evs IH]; intros st Hobs.
  - exact Hobs.
  - rewrite run_cons; simpl. apply IH, dispatch_keeps_observer, Hobs.
Qed.

Lemma quiet_no_disconnect props ev st :
  quiet ev = true -> disconnects (calls (dispatch props ev st)) = 0.
Proof.
  destruct ev as [root| |entries| |]; simpl; intros Hq;
    try discriminate Hq; try reflexivity.
  unfold intersectionCallback. destruct entries as [|image rest]; simpl.
  - reflexivity.
  - simpl in Hq. destruct (isIntersecting image); [discriminate Hq|].
    reflexivity.
Qed.

Lemma run_quiet_no_disconnect props evs st :
  Forall (fun ev => quiet ev = true) evs ->
  disconnects (snd (run props evs st)) = 0.
Proof.
  intros Hq. revert st. induction Hq as [|ev evs Hev _ IH]; intros st.
  - reflexivity.
  - rewrite run_cons; simpl.
    rewrite disconnects_app, (quiet_no_disconnect props ev st Hev), IH.
    reflexivity.
Qed.

Lemma accepted_constructs props :
  options_accepted props = true ->
  IntersectionObserver_new accepts_rootMargin
    {| threshold := intersectionTreshold props;
       rootMargin := intersectionMargin props |}
  = inr {| io_init := configured_init props; io_targets := [] |}.
Proof.
  unfold options_accepted, IntersectionObserver_new, configured_init.
  destruct (construction_error _ _); [discriminate|reflexivity].
Qed.

Lemma mounted_creates_observer w props st :
  window = Some w -> has_IntersectionObserver w = true ->
  options_accepted props = true ->
  is_Some (observer (next (onMounted props st)))
  /\ disconnects (calls (onMounted props st)) = 0
  /\ thrown (onMounted props st) = None.
Proof.
  intros Hw Hio Hopt. unfold onMounted.
  rewrite Hw, Hio, (accepted_constructs props Hopt).
  destruct (el st); simpl; repeat split; eexists; reflexivity.
Qed.

Lemma callback_disconnects entries st :
  is_Some (observer st) -> qualifying entries = true ->
  calls (intersectionCallback entries st) = [CallDisconnect]
  /\ inView (next (intersectionCallback entries st)) = true
  /\ thrown (intersectionCallback entries st) = None
  /\ is_Some (observer (next (intersectionCallback entries st))).
Proof.
  intros [o Ho] Hq. unfold intersectionCallback.
  destruct entries as [|image rest]; simpl in *; [discriminate Hq|].
  rewrite Hq, Ho; simpl. repeat split. eexists; reflexivity.
Qed.

Lemma unmount_disconnects w st :
  window = Some w -> has_IntersectionObserver w = true ->
  is_Some (observer st) ->
  calls (onBeforeUnmount st) = [CallDisconnect]
  /\ thrown (onBeforeUnmount st) = None.
Proof.
  intros Hw Hio [o Ho]. unfold onBeforeUnmount.
  rewrite Hw, Hio, Ho; simpl. split; reflexivity.
Qed.

Lemma mounted_then_observer w props st evs :
  window = Some w -> has_IntersectionObserver w = true ->
  options_accepted props = true ->
  is_Some (observer (fst (run props (Mounted :: evs) st))).
Proof.
  intros Hw Hio Hopt. rewrite run_cons; simpl.
  apply run_keeps_observer.
  apply (mounted_creates_observer w props st Hw Hio Hopt).
Qed.

Lemma mounted_quiet_no_disconnect w props st evs :
  window = Some w -> has_IntersectionObserver w = true ->
  options_accepted props = true ->
  Forall (fun ev => quiet ev = true) evs ->
  disconnects (snd (run props (Mounted :: evs) st)) = 0.
Proof.
  intros Hw Hio Hopt Hq. rewrite run_cons; simpl.
  rewrite disconnects_app.
  destruct (mounted_creates_observer w props st Hw Hio Hopt) as (_ & -> & _).
  rewrite (run_quiet_no_disconnect props evs _ Hq). reflexivity.
Qed.

Lemma run_snoc props evs ev st :
  run props (evs ++ [ev])%list st =
  (next (dispatch props ev (fst (run props evs st))),
   (snd (run props evs st)
      ++ calls (dispatch props ev (fst (run props evs st))))%list).
Proof.
  rewrite run_app. simpl. rewrite app_nil_r. reflexivity.
Qed.

(** C6: where IntersectionObserver is supported and its constructor
    accepts the threshold and the margin of the props, so that mounting
    yields an observer: after mounting and any events that include no
    qualifying intersection report, [disconnect] has not been called; the
    first qualifying report calls it exactly once and sets [inView];
    unmounting instead calls it exactly once.  Neither handler throws, and
    an unmount that follows a qualifying report, and so disconnects a
    second time, does not throw either. *)
Theorem disconnect_once w props st pre :
  window = Some w ->
  has_IntersectionObserver w = true ->
  options_accepted props = true ->
  Forall (fun ev => quiet ev = true) pre ->
  disconnects (snd (run props (Mounted :: pre) st)) = 0
  /\ (forall entries,
        qualifying entries = true ->
        calls (intersectionCallback entries
                 (fst (run props (Mounted :: pre) st))) = [CallDisconnect]
        /\ inView (next (intersectionCallback entries
                           (fst (run props (Mounted :: pre) st)))) = true
        /\ thrown (intersectionCallback entries
                     (fst (run props (Mounted :: pre) st))) = None
        /\ disconnects
             (snd (run props (Mounted :: pre ++ [Intersection entries]) st))
           = 1)
  /\ calls (onBeforeUnmount (fst (run props (Mounted :: pre) st)))
     = [CallDisconnect]
  /\ thrown (onBeforeUnmount (fst (run props (Mounted :: pre) st))) = None
  /\ disconnects (snd (run props (Mounted :: pre ++ [BeforeUnmount]) st)) = 1
  /\ (forall entries later,
        qualifying entries = true ->
        thrown
          (onBeforeUnmount
             (fst (run props later
                     (next (intersectionCallback entries
                              (fst (run props (Mounted :: pre) st)))))))
        = None).
Proof.
  intros Hw Hio Hopt Hq.
  pose proof (mounted_then_observer w props st pre Hw Hio Hopt) as Hobs.
  pose proof (mounted_quiet_no_disconnect w props st pre Hw Hio Hopt Hq)
    as Hzero.
  split; [exact Hzero|].
  split; [|split; [|split; [|split]]].
  - intros entries Hent.
    destruct (callback_disconnects entries _ Hobs Hent) as (Hc & Hv & Ht & _).
    repeat split; try assumption.
    rewrite app_comm_cons, run_snoc; cbn [snd].
    rewrite disconnects_app, Hzero. cbn [dispatch]. rewrite Hc. reflexivity.
  - apply (unmount_disconnects w _ Hw Hio Hobs).
  - apply (unmount_disconnects w _ Hw Hio Hobs).
  - rewrite app_comm_cons, run_snoc; cbn [snd].
    rewrite disconnects_app, Hzero. cbn [dispatch].
    destruct (unmount_disconnects w _ Hw Hio Hobs) as [-> _]. reflexivity.
  - intros entries later Hent.
    destruct (callback_disconnects entries _ Hobs Hent) as (_ & _ & _ & Hobs1).
    apply (unmount_disconnects w _ Hw Hio).
    apply run_keeps_observer, Hobs1.
Qed.

(** C10: where IntersectionObserver is supported and its constructor
    accepts the options of the props, a qualifying intersection report
    calls [disconnect] and leaves the [observer] ref set; the ref stays
    set through whatever follows, so unmounting calls [disconnect] again,
    without throwing.  Over the whole lifecycle [disconnect] is called at
    least twice, and exactly twice when the other events are quiet.
    Disconnecting a disconnected observer changes nothing. *)
Theorem disconnect_again_on_unmount w props st pre entries later :
  window = Some w ->
  has_IntersectionObserver w = true ->
  options_accepted props = true ->
  qualifying entries = true ->
  calls (intersectionCallback entries (fst (run props (Mounted :: pre) st)))
    = [CallDisconnect]
  /\ is_Some
       (observer
          (fst (run props (Mounted :: pre ++ Intersection entries :: later) st)))
  /\ calls
       (onBeforeUnmount
          (fst (run props (Mounted :: pre ++ Intersection entries :: later) st)))
     = [CallDisconnect]
  /\ thrown
       (onBeforeUnmount
          (fst (run props (Mounted :: pre ++ Intersection entries :: later) st)))
     = None
  /\ 2 <= disconnects
            (snd (run props
                    (Mounted :: pre ++ Intersection entries :: later
                       ++ [BeforeUnmount]) st))
  /\ (Forall (fun ev => quiet ev = true) pre ->
      Forall (fun ev => quiet ev = true) later ->
      disconnects
        (snd (run props
                (Mounted :: pre ++ Intersection entries :: later
                   ++ [BeforeUnmount]) st)) = 2)
  /\ (forall o,
        IntersectionObserver_disconnect (IntersectionObserver_disconnect o)
        = IntersectionObserver_disconnect o).
Proof.
  intros Hw Hio Hopt Hent.
  pose proof (mounted_then_observer w props st pre Hw Hio Hopt) as Hobs.
  pose proof (mounted_then_observer w props st
                (pre ++ Intersection entries :: later) Hw Hio Hopt) as Hobs2.
  destruct (callback_disconnects entries _ Hobs Hent) as (Hc & _ & _ & _).
  destruct (unmount_disconnects w _ Hw Hio Hobs2) as [Hu Ht].
  assert (Hsplit :
    (Mounted :: pre ++ Intersection entries :: later ++ [BeforeUnmount]
     = ((Mounted :: pre) ++ [Intersection entries]) ++ later ++ [BeforeUnmount])%list).
  { simpl. rewrite <- app_assoc. reflexivity. }
  assert (Hstate :
    fst (run props (Mounted :: pre ++ Intersection entries :: later) st)
    = fst (run props later
             (next (intersectionCallback entries
                      (fst (run props (Mounted :: pre) st)))))).
  { rewrite app_comm_cons.
    replace ((Mounted :: pre) ++ Intersection entries :: later)%list
      with (((Mounted :: pre) ++ [Intersection entries]) ++ later)%list
      by (rewrite <- app_assoc; reflexivity).
    rewrite run_app; cbn [fst]. rewrite run_snoc; cbn [fst]. reflexivity. }
  assert (Hcount :
    disconnects
      (snd (run props
              (Mounted :: pre ++ Intersection entries :: later
                 ++ [BeforeUnmount]) st))
    = disconnects (snd (run props (Mounted :: pre) st)) + 1
      + disconnects
          (snd (run props later
                  (next (intersectionCallback entries
                           (fst (run props (Mounted :: pre) st))))))
      + 1).
  { rewrite Hsplit, run_app; cbn [snd].
    rewrite run_snoc; cbn [fst]; cbn [snd].
    rewrite run_snoc; cbn [snd].
    rewrite !disconnects_app. cbn [dispatch].
    rewrite Hc, <- Hstate, Hu.
    change (disconnects [CallDisconnect]) with 1. lia. }
  repeat split; try assumption.
  - rewrite Hcount. lia.
  - intros Hpre Hlater. rewrite Hcount.
    rewrite (mounted_quiet_no_disconnect w props st pre Hw Hio Hopt Hpre).
    rewrite (run_quiet_no_disconnect props later _ Hlater). reflexivity.
Qed.

(** ** Further properties of the component *)

(** *** Derived booleans along a lifecycle *)

Lemma flag_step_true b : flag_step true b -> b = true.
Proof. intros [->|[E _]]; [reflexivity|discriminate E]. Qed.

(** X1: the real image is never revealed without being mounted. *)
Theorem shown_implies_mounted props st :
  shouldShowImage props st = true -> shouldAddImage props st = true.
Proof.
  unfold shouldShowImage, shouldAddImage.
  destruct (lazyLoad props); simpl; [|reflexivity].
  destruct window as [w|]; [|intros E; exact E].
  destruct (has_IntersectionObserver w); [|reflexivity].
  intros ->. apply orb_true_r.
Qed.

(** X2: once the real image is mounted it stays mounted, and once it is
    revealed it stays revealed, whatever events follow. *)
Theorem mounted_and_shown_persist props evs st :
  (shouldAddImage props st = true ->
   shouldAddImage props (fst (run props evs st)) = true)
  /\ (shouldShowImage props st = true ->
      shouldShowImage props (fst (run props evs st)) = true).
Proof.
  destruct (run_flags props evs st) as [Hv Hl].
  unfold shouldAddImage, shouldShowImage.
  destruct (lazyLoad props); simpl; [|split; reflexivity].
  destruct window as [w|]; [|split; intros E; exact E].
  destruct (has_IntersectionObserver w); [|split; reflexivity].
  split.
  - intros Hadd. apply orb_true_iff in Hadd. apply orb_true_iff.
    destruct Hadd as [E|E]; rewrite E in *.
    + left. apply flag_step_true, Hv.
    + right. apply flag_step_true, Hl.
  - intros E. rewrite E in Hl. apply flag_step_true, Hl.
Qed.

Lemma render_reads_derived props st st' :
  shouldAddImage props st = shouldAddImage props st' ->
  shouldShowImage props st = shouldShowImage props st' ->
  render props st = render props st'.
Proof.
  intros Hadd Hshow. unfold render, backgroundDiv, pictureImg.
  rewrite Hadd, Hshow. reflexivity.
Qed.

(** X3: the tree depends on the refs only through [inView] and [loaded];
    the [observer] and [el] refs never influence it. *)
Theorem render_depends_on_flags_only props st st' :
  inView st = inView st' ->
  loaded st = loaded st' ->
  render props st = render props st'.
Proof.
  intros Hv Hl. apply render_reads_derived.
  - unfold shouldAddImage. rewrite Hv, Hl. reflexivity.
  - unfold shouldShowImage. rewrite Hl. reflexivity.
Qed.

(** X4: once the image has loaded, no later event changes the tree. *)
Theorem render_final_after_load props evs st :
  loaded st = true ->
  render props (fst (run props evs st)) = render props st.
Proof.
  intros Hl.
  destruct (run_flags props evs st) as [_ Hl'].
  rewrite Hl in Hl'. apply flag_step_true in Hl'.
  apply render_reads_derived.
  - unfold shouldAddImage. rewrite Hl, Hl', !orb_true_r. reflexivity.
  - unfold shouldShowImage. rewrite Hl, Hl'. reflexivity.
Qed.

(** *** The placeholder's height at the edges *)

(** X5: a height of 0 or NaN in the descriptor is treated as absent, the
    height being [width / aspectRatio]; every other height, negative or
    infinite ones included, is used as given. *)
Theorem height_falls_back_on_falsy props :
  height props =
    match ImageData.height (data props) with
    | Some x =>
        if is_zero x || is_nan x
        then VNumber (div (ImageData.width (data props))
                          (ImageData.aspectRatio (data props)))
        else VNumber x
    | None =>
        VNumber (div (ImageData.width (data props))
                     (ImageData.aspectRatio (data props)))
    end.
Proof.
  unfold height, or_else.
  destruct (ImageData.height (data props)) as [x|]; simpl; [|reflexivity].
  rewrite number_truthy_spec.
  destruct (is_zero x || is_nan x); reflexivity.
Qed.

(** X6: the aspect ratio is not validated: with no height, a positive
    width and an aspect ratio of zero, the height is an infinity with the
    sign of that zero, and the placeholder's markup prints it as
    ["Infinity"] or ["-Infinity"]. *)
Theorem zero_aspect_ratio_height props (negative : bool) :
  ImageData.height (data props) = None ->
  ImageData.aspectRatio (data props) = S754_zero negative ->
  is_positive (ImageData.width (data props)) = true ->
  height props = VNumber (S754_infinity negative)
  /\ svg props =
     svg_markup (str (ImageData.width (data props)))
                (if negative then "-Infinity" else "Infinity").
Proof.
  intros Hh Hr Hw.
  assert (Hheight : height props = VNumber (S754_infinity negative)).
  { unfold height. rewrite Hh, Hr. unfold or_else; simpl.
    destruct (ImageData.width (data props)) as [[]|[]| |[] m e];
      try discriminate Hw; destruct negative; reflexivity. }
  split; [exact Hheight|].
  unfold svg. rewrite Hheight. destruct negative; reflexivity.
Qed.

(** *** Sources and caller styles *)

Lemma truthy_opt_string o : truthy (opt_string o) = nonempty o.
Proof. destruct o as [[|c s]|]; reflexivity. Qed.

(** X7: both pictures hold the same [source] elements followed by their
    [img]: one source for a non-empty [webpSrcSet], one for a non-empty
    [srcSet], the WebP one first.  An empty string counts as absent. *)
Theorem picture_sources props st :
  exists sources,
    length sources =
      Nat.b2n (nonempty (ImageData.webpSrcSet (data props)))
      + Nat.b2n (nonempty (ImageData.srcSet (data props)))
    /\ Forall (fun n => vnode_tag n = "source") sources
    /\ (if nonempty (ImageData.webpSrcSet (data props))
        then (fun n => vnode_props n !! "type") <$> head sources
             = Some (Some (PVal (VString "image/webp")))
        else Forall (fun n => vnode_props n !! "type" = None) sources)
    /\ vnode_elements <$> vnode_at at_noscript_picture (render props st) =
       Some (sources ++ [noscriptImg props])%list
    /\ vnode_elements <$> vnode_at at_picture (render props st) =
       (if shouldAddImage props st
        then Some (sources ++ [pictureImg props st])%list
        else None).
Proof.
  exists (omap id [webpSource props; regularSource props]).
  unfold render, at_noscript_picture, at_picture; simpl.
  unfold vnode_child; simpl.
  unfold webpSource, regularSource. rewrite !truthy_opt_string.
  destruct (nonempty (ImageData.webpSrcSet (data props)));
    destruct (nonempty (ImageData.srcSet (data props))); simpl;
    (split; [reflexivity|]);
    (split; [repeat constructor|]);
    (split; [try rewrite lookup_object; repeat constructor;
             try (rewrite lookup_object; reflexivity)|]);
    (split; [reflexivity|]);
    destruct (shouldAddImage props st); reflexivity.
Qed.

(** X8: the caller's styles stay where they are sent.  Neither style
    object reaches the background layer; [pictureStyle] does not reach the
    root; [rootStyle] reaches none of the three images. *)
Theorem caller_styles_are_separate props st root root' picture picture' :
  vnode_at at_background (render (with_styles root picture props) st)
    = vnode_at at_background (render props st)
  /\ style_at at_root (render (with_styles root picture props) st)
     = style_at at_root (render (with_styles root picture' props) st)
  /\ vnode_at at_placeholder (render (with_styles root picture props) st)
     = vnode_at at_placeholder (render (with_styles root' picture props) st)
  /\ vnode_at at_picture (render (with_styles root picture props) st)
     = vnode_at at_picture (render (with_styles root' picture props) st)
  /\ vnode_at at_noscript_picture (render (with_styles root picture props) st)
     = vnode_at at_noscript_picture
         (render (with_styles root' picture props) st).
Proof.
  split; [reflexivity|].
  split; [rewrite !render_root_style; reflexivity|].
  repeat split; reflexivity.
Qed.

(** *** Platform calls over a lifecycle *)

Lemma dispatch_disconnects_bound props ev st :
  disconnects (calls (dispatch props ev st))
  <= Nat.b2n (is_qualifying ev) + Nat.b2n (is_unmount ev).
Proof.
  destruct ev as [root| |entries| |]; simpl.
  - apply Nat.le_refl.
  - unfold onMounted. destruct window as [w|]; simpl; [|apply Nat.le_refl].
    destruct (has_IntersectionObserver w); simpl; [|apply Nat.le_refl].
    destruct (IntersectionObserver_new _ _); simpl; [apply Nat.le_refl|].
    destruct (el st); apply Nat.le_refl.
  - unfold intersectionCallback. destruct entries as [|image rest]; simpl.
    + apply Nat.le_refl.
    + destruct (isIntersecting image); simpl; [|apply Nat.le_refl].
      destruct (observer st); simpl; [apply Nat.le_refl|apply Nat.le_0_l].
  - apply Nat.le_refl.
  - unfold onBeforeUnmount. destruct window as [w|]; simpl;
      [|apply Nat.le_0_l].
    destruct (has_IntersectionObserver w); simpl; [|apply Nat.le_0_l].
    destruct (observer st); simpl; [apply Nat.le_refl|apply Nat.le_0_l].
Qed.

Lemma dispatch_disconnects_exact w props ev st :
  window = Some w -> has_IntersectionObserver w = true ->
  is_Some (observer st) ->
  disconnects (calls (dispatch props ev st))
  = Nat.b2n (is_qualifying ev) + Nat.b2n (is_unmount ev).
Proof.
  intros Hw Hio [o Ho]. destruct ev as [root| |entries| |]; simpl.
  - reflexivity.
  - unfold onMounted. rewrite Hw, Hio.
    destruct (IntersectionObserver_new _ _); [reflexivity|].
    destruct (el st); reflexivity.
  - unfold intersectionCallback. destruct entries as [|image rest]; simpl.
    + reflexivity.
    + destruct (isIntersecting image); simpl; [|reflexivity].
      rewrite Ho. reflexivity.
  - reflexivity.
  - unfold onBeforeUnmount. rewrite Hw, Hio, Ho. reflexivity.
Qed.

Lemma count_events_cons f ev evs :
  count_events f (ev :: evs) = Nat.b2n (f ev) + count_events f evs.
Proof. unfold count_events; simpl. destruct (f ev); reflexivity. Qed.

(** X9: [disconnect] is called only by qualifying intersection reports
    and by unmounts, at most once each.  Where IntersectionObserver is
    supported and the [observer] ref is set, it is called exactly once by
    each of them. *)
Theorem disconnect_calls_counted props evs st :
  disconnects (snd (run props evs st))
    <= count_events is_qualifying evs + count_events is_unmount evs
  /\ (forall w,
        window = Some w ->
        has_IntersectionObserver w = true ->
        is_Some (observer st) ->
        disconnects (snd (run props evs st))
        = count_events is_qualifying evs + count_events is_unmount evs).
Proof.
  split.
  - revert st. induction evs as [|ev evs IH]; intros st.
    + apply Nat.le_refl.
    + rewrite run_cons, !count_events_cons; cbn [snd].
      rewrite disconnects_app.
      pose proof (dispatch_disconnects_bound props ev st) as Hev.
      pose proof (IH (next (dispatch props ev st))) as Hrest.
      lia.
  - intros w Hw Hio. revert st. induction evs as [|ev evs IH]; intros st Hobs.
    + reflexivity.
    + rewrite run_cons, !count_events_cons; cbn [snd].
      rewrite disconnects_app.
      rewrite (dispatch_disconnects_exact w props ev st Hw Hio Hobs).
      rewrite (IH (next (dispatch props ev st))
                 (dispatch_keeps_observer props ev st Hobs)).
      lia.
Qed.

Lemma dispatch_without_support props ev st :
  supports_visibility_detection window = false ->
  observer st = None ->
  calls (dispatch props ev st) = []
  /\ observer (next (dispatch props ev st)) = None
  /\ inView (next (dispatch props ev st)) = inView st.
Proof.
  intros Hsup Hobs. destruct ev as [root| |entries| |]; simpl.
  - repeat split. exact Hobs.
  - unfold onMounted. destruct window as [w|]; simpl in *.
    + rewrite Hsup. repeat split. exact Hobs.
    + repeat split. exact Hobs.
  - unfold intersectionCallback. destruct entries as [|image rest]; simpl.
    + repeat split. exact Hobs.
    + rewrite Hobs. destruct (isIntersecting image); repeat split; exact Hobs.
  - repeat split. exact Hobs.
  - unfold onBeforeUnmount. destruct window as [w|]; simpl in *.
    + rewrite Hsup. repeat split. exact Hobs.
    + repeat split. exact Hobs.
Qed.

(** X10: without IntersectionObserver support, in a browser or on a
    server, no lifecycle makes a platform call, the [observer] ref stays
    [null] and [inView] is never set. *)
Theorem nothing_observed_without_support props evs st :
  supports_visibility_detection window = false ->
  observer st = None ->
  snd (run props evs st) = []
  /\ observer (fst (run props evs st)) = None
  /\ inView (fst (run props evs st)) = inView st.
Proof.
  intros Hsup. revert st. induction evs as [|ev evs IH]; intros st Hobs.
  - repeat split. exact Hobs.
  - rewrite run_cons; cbn [fst snd].
    destruct (dispatch_without_support props ev st Hsup Hobs)
      as (Hc & Ho & Hv).
    destruct (IH _ Ho) as (Hc' & Ho' & Hv').
    rewrite Hc, Hc', Ho', Hv', Hv. repeat split.
Qed.

Lemma dispatch_sets_inView props ev st :
  inView st = false ->
  inView (next (dispatch props ev st)) = true ->
  is_qualifying ev = true
  /\ is_Some (observer (next (dispatch props ev st)))
  /\ calls (dispatch props ev st) = [CallDisconnect].
Proof.
  intros Hv. destruct ev as [root| |entries| |]; simpl.
  - rewrite Hv. discriminate.
  - unfold onMounted. destruct window as [w|]; simpl;
      [|rewrite Hv; discriminate].
    destruct (has_IntersectionObserver w); simpl; [|rewrite Hv; discriminate].
    destruct (IntersectionObserver_new _ _); simpl;
      [rewrite Hv; discriminate|].
    destruct (el st); simpl; rewrite Hv; discriminate.
  - unfold intersectionCallback. destruct entries as [|image rest]; simpl.
    + rewrite Hv. discriminate.
    + destruct (isIntersecting image); simpl; [|rewrite Hv; discriminate].
      destruct (observer st); simpl; [|rewrite Hv; discriminate].
      intros _. repeat split. eexists; reflexivity.
  - rewrite Hv. discriminate.
  - unfold onBeforeUnmount. destruct window as [w|]; simpl;
      [|rewrite Hv; discriminate].
    destruct (has_IntersectionObserver w); simpl; [|rewrite Hv; discriminate].
    destruct (observer st); simpl; rewrite Hv; discriminate.
Qed.

(** X11: [inView] is set only by a qualifying intersection report that
    finds the [observer] ref set: if a lifecycle takes [inView] from
    [false] to [true], it contains such a report, the ref is set at its
    end, and [disconnect] has been called. *)
Theorem inView_needs_observer props evs st :
  inView st = false ->
  inView (fst (run props evs st)) = true ->
  Exists (fun ev => is_qualifying ev = true) evs
  /\ is_Some (observer (fst (run props evs st)))
  /\ 1 <= disconnects (snd (run props evs st)).
Proof.
  revert st. induction evs as [|ev evs IH]; intros st Hv Hend.
  - simpl in Hend. rewrite Hv in Hend. discriminate Hend.
  - rewrite run_cons in *; cbn [fst snd] in *.
    destruct (inView (next (dispatch props ev st))) eqn:Hstep.
    + destruct (dispatch_sets_inView props ev st Hv Hstep) as (Hq & Ho & Hc).
      split; [apply Exists_cons_hd; exact Hq|].
      split; [apply run_keeps_observer; exact Ho|].
      rewrite disconnects_app, Hc.
      change (disconnects [CallDisconnect]) with 1. lia.
    + destruct (IH _ Hstep Hend) as (Hq & Ho & Hc).
      split; [apply Exists_cons_tl; exact Hq|].
      split; [exact Ho|].
      rewrite disconnects_app. lia.
Qed.

Lemma dispatch_keeps_init props ev st :
  (forall o, observer st = Some o -> io_init o = configured_init props) ->
  forall o,
    observer (next (dispatch props ev st)) = Some o ->
    io_init o = configured_init props.
Proof.
  intros Hinv o. destruct ev as [root| |entries| |]; simpl.
  - apply Hinv.
  - unfold onMounted. destruct window as [w|]; simpl; [|apply Hinv].
    destruct (has_IntersectionObserver w); simpl; [|apply Hinv].
    unfold IntersectionObserver_new.
    destruct (construction_error _ _); simpl; [apply Hinv|].
    destruct (el st); simpl; intros [= <-]; reflexivity.
  - unfold intersectionCallback. destruct entries as [|image rest]; simpl.
    + apply Hinv.
    + destruct (isIntersecting image); simpl; [|apply Hinv].
      destruct (observer st) as [o'|] eqn:Ho; simpl.
      * intros [= <-]. simpl. apply Hinv. reflexivity.
      * rewrite Ho. discriminate.
  - apply Hinv.
  - unfold onBeforeUnmount. destruct window as [w|]; simpl; [|apply Hinv].
    destruct (has_IntersectionObserver w); simpl; [|apply Hinv].
    destruct (observer st) as [o'|] eqn:Ho; simpl.
    + intros [= <-]. simpl. apply Hinv. reflexivity.
    + rewrite Ho. discriminate.
Qed.

(** X12: starting with no observer, any observer that a lifecycle leaves
    in the [observer] ref carries the threshold and the margin of the
    props; disconnecting does not alter them. *)
Theorem observer_keeps_configured_options props evs st o :
  observer st = None ->
  observer (fst (run props evs st)) = Some o ->
  io_init o = configured_init props.
Proof.
  intros Hnone.
  assert (Hinv : forall o', observer st = Some o' ->
                            io_init o' = configured_init props)
    by (intros o' E; rewrite Hnone in E; discriminate E).
  clear Hnone. revert st Hinv o.
  induction evs as [|ev evs IH]; intros st Hinv o.
  - apply Hinv.
  - rewrite run_cons; cbn [fst].
    apply IH. apply dispatch_keeps_init, Hinv.
Qed.

Lemma dispatch_ignores_lazyLoad props b ev st :
  dispatch (with_lazyLoad b props) ev st = dispatch props ev st.
Proof. destruct ev; reflexivity. Qed.

(** X13: the hooks do not read [lazyLoad]: a lifecycle runs the same with
    it on or off, so where IntersectionObserver is supported and its
    constructor accepts the options of the props, an observer is created
    on mount for an eagerly loaded image too. *)
Theorem lifecycle_ignores_lazyLoad props b evs st :
  run (with_lazyLoad b props) evs st = run props evs st
  /\ (forall w,
        window = Some w ->
        has_IntersectionObserver w = true ->
        options_accepted props = true ->
        is_Some (observer (next (onMounted (with_lazyLoad false props) st)))
        /\ head (calls (onMounted (with_lazyLoad false props) st))
           = Some (CallNew (configured_init props))).
Proof.
  split.
  - revert st. induction evs as [|ev evs IH]; intros st.
    + reflexivity.
    + rewrite !run_cons, dispatch_ignores_lazyLoad, IH. reflexivity.
  - intros w Hw Hio Hopt. unfold onMounted. rewrite Hw, Hio.
    cbn [intersectionTreshold intersectionMargin with_lazyLoad].
    rewrite (accepted_constructs props Hopt).
    destruct (el st); simpl; split; try reflexivity; eexists; reflexivity.
Qed.

(** X14: a handler that throws has written no ref, and there are three
    ways to throw.  An intersection report with no entries raises a
    TypeError and the mount and unmount hooks raise a ReferenceError where
    there is no [window], both before any platform call.  The mount hook
    also throws when the observer's constructor refuses the threshold or
    the margin of the props: the constructor has been called, the
    exception is the constructor's, and the [observer] ref is left as it
    was. *)
Theorem handler_exceptions props ev st e :
  thrown (dispatch props ev st) = Some e ->
  next (dispatch props ev st) = st
  /\ ((ev = Intersection [] /\ e = TypeError
       /\ calls (dispatch props ev st) = [])
      \/ (window = None /\ (ev = Mounted \/ ev = BeforeUnmount)
          /\ e = ReferenceError
          /\ calls (dispatch props ev st) = [])
      \/ (supports_visibility_detection window = true
          /\ ev = Mounted
          /\ construction_error accepts_rootMargin (configured_init props)
             = Some e
          /\ calls (dispatch props ev st) = [CallNew (configured_init props)])).
Proof.
  destruct ev as [root| |entries| |]; simpl.
  - discriminate.
  - unfold onMounted. destruct window as [w|]; simpl.
    + destruct (has_IntersectionObserver w); simpl; [|discriminate].
      unfold IntersectionObserver_new.
      change {| threshold := intersectionTreshold props;
                rootMargin := intersectionMargin props |}
        with (configured_init props).
      destruct (construction_error _ _) as [e'|]; simpl.
      * intros [= <-]. split; [reflexivity|].
        right. right. repeat split.
      * destruct (el st); discriminate.
    + intros [= <-]. split; [reflexivity|].
      right. left. repeat split. left. reflexivity.
  - unfold intersectionCallback. destruct entries as [|image rest]; simpl.
    + intros [= <-]. split; [reflexivity|]. left. repeat split.
    + destruct (isIntersecting image); simpl; [|discriminate].
      destruct (observer st); discriminate.
  - discriminate.
  - unfold onBeforeUnmount. destruct window as [w|]; simpl.
    + destruct (has_IntersectionObserver w); simpl; [|discriminate].
      destruct (observer st); discriminate.
    + intros [= <-]. split; [reflexivity|].
      right. left. repeat split. right. reflexivity.
Qed.

Lemma rejected_constructs props :
  options_accepted props = false ->
  exists e,
    IntersectionObserver_new accepts_rootMargin
      {| threshold := intersectionTreshold props;
         rootMargin := intersectionMargin props |} = inl e.
Proof.
  unfold options_accepted, configured_init, IntersectionObserver_new.
  destruct (construction_error _ _) as [e|]; [|discriminate].
  intros _. exists e. reflexivity.
Qed.

Lemma dispatch_with_rejected_options props ev st :
  options_accepted props = false ->
  observer st = None ->
  observer (next (dispatch props ev st)) = None
  /\ inView (next (dispatch props ev st)) = inView st
  /\ disconnects (calls (dispatch props ev st)) = 0.
Proof.
  intros Hopt Hobs. destruct (rejected_constructs props Hopt) as [e Hnew].
  destruct ev as [root| |entries| |]; simpl.
  - repeat split. exact Hobs.
  - unfold onMounted. destruct window as [w|]; simpl.
    + destruct (has_IntersectionObserver w); simpl; rewrite ?Hnew; simpl;
        repeat split; exact Hobs.
    + repeat split. exact Hobs.
  - unfold intersectionCallback. destruct entries as [|image rest]; simpl.
    + repeat split. exact Hobs.
    + rewrite Hobs. destruct (isIntersecting image); simpl;
        repeat split; exact Hobs.
  - repeat split. exact Hobs.
  - unfold onBeforeUnmount. destruct window as [w|]; simpl.
    + rewrite Hobs. destruct (has_IntersectionObserver w); simpl;
        repeat split; exact Hobs.
    + repeat split. exact Hobs.
Qed.

(** X17: where the observer's constructor refuses the options of the
    props, mounting with IntersectionObserver support throws and leaves
    the [observer] ref as it was; starting with no observer, the ref stays
    [null] through the whole lifecycle, [inView] is never set and
    [disconnect] is never called, on unmount included. *)
Theorem rejected_options_leave_no_observer props evs st :
  options_accepted props = false ->
  observer st = None ->
  observer (fst (run props evs st)) = None
  /\ inView (fst (run props evs st)) = inView st
  /\ disconnects (snd (run props evs st)) = 0
  /\ (supports_visibility_detection window = true ->
      is_Some (thrown (onMounted props st))).
Proof.
  intros Hopt Hobs. split; [|split; [|split]].
  4: { intros Hsup. destruct (rejected_constructs props Hopt) as [e Hnew].
       unfold onMounted.
       destruct window as [w|]; simpl in Hsup; [|discriminate Hsup].
       rewrite Hsup, Hnew. eexists; reflexivity. }
  all: revert st Hobs; induction evs as [|ev evs IH]; intros st Hobs;
    [first [exact Hobs|reflexivity]|];
    rewrite run_cons; cbn [fst snd];
    destruct (dispatch_with_rejected_options props ev st Hopt Hobs)
      as (Ho & Hv & Hc).
  - apply IH, Ho.
  - rewrite (IH _ Ho). exact Hv.
  - rewrite disconnects_app, Hc, (IH _ Ho). reflexivity.
Qed.

Lemma dispatch_keeps_released props ev st :
  is_mount ev = false -> released st -> released (next (dispatch props ev st)).
Proof.
  intros Hev (o & Ho & Ht). destruct ev as [root| |entries| |]; simpl.
  - exists o. split; assumption.
  - discriminate Hev.
  - unfold intersectionCallback. destruct entries as [|image rest]; simpl.
    + exists o. split; assumption.
    + destruct (isIntersecting image); rewrite ?Ho; simpl.
      * eexists. split; reflexivity.
      * exists o. split; assumption.
  - exists o. split; assumption.
  - unfold onBeforeUnmount. destruct window as [w|]; simpl.
    + destruct (has_IntersectionObserver w); rewrite ?Ho; simpl.
      * eexists. split; reflexivity.
      * exists o. split; assumption.
    + exists o. split; assumption.
Qed.

Lemma run_keeps_released props evs st :
  Forall (fun ev => is_mount ev = false) evs ->
  released st -> released (fst (run props evs st)).
Proof.
  intros Hevs. revert st. induction Hevs as [|ev evs Hev _ IH]; intros st Hrel.
  - exact Hrel.
  - rewrite run_cons; cbn [fst]. apply IH, dispatch_keeps_released; assumption.
Qed.

(** X16: where IntersectionObserver is supported and the [observer] ref
    is set, a qualifying intersection report, like an unmount, leaves the
    observer watching no element, and it watches none after any further
    events of the same mount. *)
Theorem observer_released w props ev evs st :
  window = Some w ->
  has_IntersectionObserver w = true ->
  is_Some (observer st) ->
  is_qualifying ev || is_unmount ev = true ->
  Forall (fun ev' => is_mount ev' = false) evs ->
  released (fst (run props (ev :: evs) st)).
Proof.
  intros Hw Hio [o Ho] Hev Hevs.
  rewrite run_cons; cbn [fst]. apply run_keeps_released; [exact Hevs|].
  destruct ev as [root| |entries| |]; simpl in Hev; try discriminate Hev.
  - simpl. unfold intersectionCallback.
    destruct entries as [|image rest]; simpl in Hev; [discriminate Hev|].
    rewrite orb_false_r in Hev. rewrite Hev, Ho; simpl.
    eexists. split; reflexivity.
  - simpl. unfold onBeforeUnmount. rewrite Hw, Hio, Ho; simpl.
    eexists. split; reflexivity.
Qed.

End Component.

(** ** Concrete runs *)

(** The override rule of the specification fails in a browser for the
    caller style [{position: "static"}]: the root keeps
    [position: relative]. *)
Lemma rootStyle_position_is_not_overriding :
  ~ caller_entries_override browser no_digits repositioned_props setup_state.
Proof.
  intros [Hroot _].
  specialize (Hroot "position" (VString "static") eq_refl).
  rewrite render_root_style in Hroot.
  vm_compute in Hroot. discriminate Hroot.
Qed.

(** The parser of the examples takes margins in [px] and [%] and refuses
    other units; the constructor refuses a threshold of 2 and accepts the
    default options. *)
Example accepted_and_refused_options :
  px_or_percent_margins "0px 0px 0px 0px" = true
  /\ px_or_percent_margins "10% -5px" = true
  /\ px_or_percent_margins "1em" = false
  /\ construction_error px_or_percent_margins
       (configured_init example_props) = None
  /\ construction_error px_or_percent_margins
       (configured_init (with_threshold (of_Z 2) example_props))
     = Some RangeError.
Proof. repeat split. Qed.

(** The tiers of rendering: without lazy loading or without
    IntersectionObserver the image is mounted and shown at once; on a
    server it is neither. *)
Example rendering_tiers :
  shouldAddImage legacy_browser example_props setup_state = true
  /\ shouldShowImage legacy_browser example_props setup_state = true
  /\ shouldAddImage None example_props setup_state = false
  /\ shouldShowImage None example_props setup_state = false
  /\ shouldAddImage browser example_props setup_state = false.
Proof. repeat split. Qed.

(** A lazy image in a browser: absent before the first qualifying report,
    then mounted at opacity 0, then, once loaded, at opacity 1 over a
    background at opacity 0. *)
Example lazy_lifecycle :
  let tree evs :=
    render browser no_digits example_props
      (fst (run browser px_or_percent_margins example_props evs mounted_root)) in
  vnode_at at_picture (tree [Mounted]) = None
  /\ style_at at_picture_img (tree [Mounted; Intersection seen]) !! "opacity"
     = Some (VNumber (of_Z 0))
  /\ style_at at_picture_img (tree [Mounted; Intersection seen; ImgLoad])
       !! "opacity"
     = Some (VNumber (of_Z 1))
  /\ style_at at_background (tree [Mounted; Intersection seen; ImgLoad])
       !! "opacity"
     = Some (VNumber (of_Z 0)).
Proof. vm_compute. repeat split. Qed.

(** The real image, once mounted, keeps its computed opacity under a
    caller style that sets [opacity]. *)
Example picture_img_opacity_is_computed :
  style_at at_picture_img
    (render browser no_digits
       (with_styles ∅ (object [ Field "opacity" (VString "0.5") ]) example_props)
       in_view_state) !! "opacity"
  = Some (VNumber (of_Z 0)).
Proof. vm_compute. reflexivity. Qed.

(** The merge order at the caller style [{color: "red"}], on a mounted
    image. *)
Lemma style_merge_order_witness :
  (rootStyle styled_props !! "color" = Some (VString "red")
   /\ pictureStyle styled_props !! "color" = Some (VString "red")
   /\ shouldAddImage browser styled_props in_view_state = true)
  /\ style_at at_root
       (render browser no_digits styled_props in_view_state) !! "color"
     = Some (VString "red")
  /\ style_at at_placeholder
       (render browser no_digits styled_props in_view_state) !! "color"
     = Some (VString "red")
  /\ style_at at_picture_img
       (render browser no_digits styled_props in_view_state) !! "color"
     = Some (VString "red")
  /\ style_at at_picture_img
       (render browser no_digits styled_props in_view_state) !! "opacity"
     = Some (VNumber (of_Z 0))
  /\ style_at at_noscript_img
       (render browser no_digits styled_props in_view_state) !! "color"
     = Some (VString "red").
Proof.
  destruct (style_merge_order browser no_digits styled_props in_view_state
              "color" (VString "red"))
    as (Hroot & _ & Hplaceholder & Himg & Hcomputed & Hnoscript).
  assert (Hr : rootStyle styled_props !! "color" = Some (VString "red"))
    by reflexivity.
  assert (Hp : pictureStyle styled_props !! "color" = Some (VString "red"))
    by reflexivity.
  assert (Ha : shouldAddImage browser styled_props in_view_state = true)
    by reflexivity.
  split; [repeat split; assumption|].
  split; [apply Hroot; [exact Hr|discriminate]|].
  split; [apply Hplaceholder; exact Hp|].
  split; [apply Himg; [exact Hp|discriminate|discriminate|exact Ha]|].
  split; [apply (Hcomputed Ha)|].
  apply Hnoscript; [exact Hp|discriminate..].
Defined.

(** The placeholder's height without a height and with height 300, and
    the placeholder image's [src] in the tree. *)
Lemma placeholder_height_witness :
  (ImageData.height (data example_props) = None
   /\ height example_props = VNumber (div (of_Z 800) (of_Z 2))
   /\ prop_at at_placeholder "src"
        (render browser no_digits example_props setup_state)
      = Some (placeholder_src (svg_markup "800" "400")))
  /\ (ImageData.height (data tall_props) = Some (of_Z 300)
      /\ is_positive (of_Z 300) = true
      /\ height tall_props = VNumber (of_Z 300)
      /\ prop_at at_placeholder "src"
           (render browser no_digits tall_props setup_state)
         = Some (placeholder_src (svg_markup "800" "300"))).
Proof.
  split.
  - split; [reflexivity|].
    apply (proj1 (placeholder_height browser no_digits example_props
                    setup_state)).
    reflexivity.
  - split; [reflexivity|split; [reflexivity|]].
    apply (proj1 (proj2 (placeholder_height browser no_digits tall_props
                           setup_state)) (of_Z 300));
      reflexivity.
Defined.

(** The transition for 500 ms and for 0 ms. *)
Lemma transition_string_witness :
  (is_zero (fadeInDuration example_props) = false
   /\ is_nan (fadeInDuration example_props) = false
   /\ transition no_digits example_props = VString "opacity 500ms 500ms")
  /\ (is_zero (fadeInDuration (with_fadeInDuration (of_Z 0) example_props)) = true
      /\ transition no_digits (with_fadeInDuration (of_Z 0) example_props)
         = VNull).
Proof.
  split.
  - split; [reflexivity|split; [reflexivity|]].
    apply (proj1 (proj2 (proj2 (transition_string browser no_digits
                                  example_props setup_state))));
      reflexivity.
  - split; [reflexivity|].
    apply (proj1 (proj2 (transition_string browser no_digits
                           (with_fadeInDuration (of_Z 0) example_props)
                           setup_state))).
    reflexivity.
Defined.

(** The computed styles of an 800 px wide image with [explicitWidth]. *)
Lemma explicit_width_styles_witness :
  (rootStyle (with_explicitWidth true example_props) !! "display" = None
   /\ pictureStyle (with_explicitWidth true example_props) !! "width" = None)
  /\ style_at at_root
       (render browser no_digits (with_explicitWidth true example_props)
          setup_state) !! "display"
     = Some (VString "inline-block")
  /\ style_at at_placeholder
       (render browser no_digits (with_explicitWidth true example_props)
          setup_state) !! "width"
     = Some (VString "800px").
Proof.
  split; [split; reflexivity|].
  apply (proj2 (explicit_width_styles browser no_digits)
           (with_explicitWidth true example_props) setup_state);
    reflexivity.
Defined.

(** The pictures of the example descriptor, which has no source sets. *)
Lemma example_height_and_no_sources_witness :
  (ImageData.srcSet (data example_props) = None
   /\ ImageData.webpSrcSet (data example_props) = None)
  /\ vnode_elements <$>
       vnode_at at_noscript_picture
         (render browser no_digits example_props in_view_state)
     = Some [noscriptImg example_props]
  /\ vnode_elements <$>
       vnode_at at_picture
         (render browser no_digits example_props in_view_state)
     = Some [pictureImg browser no_digits example_props in_view_state].
Proof.
  split; [split; reflexivity|].
  destruct (proj2 (example_height_and_no_sources browser no_digits)
              example_props in_view_state eq_refl eq_refl)
    as (Hnoscript & Hpicture & _).
  split; [exact Hnoscript|exact Hpicture].
Defined.

(** A lifecycle in a browser: mounted, a report that does not qualify, a
    load, then either a qualifying report or the unmount. *)
Lemma disconnect_once_witness :
  (browser = Some {| has_IntersectionObserver := true |}
   /\ options_accepted px_or_percent_margins example_props = true
   /\ Forall (fun ev => quiet ev = true) [Intersection unseen; ImgLoad]
   /\ qualifying seen = true)
  /\ disconnects
       (snd (run browser px_or_percent_margins example_props
               [Mounted; Intersection unseen; ImgLoad] mounted_root)) = 0
  /\ disconnects
       (snd (run browser px_or_percent_margins example_props
               [Mounted; Intersection unseen; ImgLoad; Intersection seen]
               mounted_root)) = 1
  /\ disconnects
       (snd (run browser px_or_percent_margins example_props
               [Mounted; Intersection unseen; ImgLoad; BeforeUnmount]
               mounted_root)) = 1.
Proof.
  assert (Hq : Forall (fun ev => quiet ev = true) [Intersection unseen; ImgLoad])
    by (repeat constructor).
  destruct (disconnect_once browser px_or_percent_margins {| has_IntersectionObserver := true |}
              example_props mounted_root [Intersection unseen; ImgLoad]
              eq_refl eq_refl eq_refl Hq)
    as (Hzero & Hfirst & _ & _ & Hunmount & _).
  destruct (Hfirst seen eq_refl) as (_ & _ & _ & Hone).
  split; [split; [reflexivity|split; [reflexivity|split;
                                       [exact Hq|reflexivity]]]|].
  split; [exact Hzero|split; [exact Hone|exact Hunmount]].
Defined.

(** A lifecycle in a browser: mounted, a qualifying report, a load, the
    unmount. *)
Lemma disconnect_again_on_unmount_witness :
  (browser = Some {| has_IntersectionObserver := true |}
   /\ options_accepted px_or_percent_margins example_props = true
   /\ qualifying seen = true
   /\ Forall (fun ev => quiet ev = true) ([] : list Event)
   /\ Forall (fun ev => quiet ev = true) [ImgLoad])
  /\ calls
       (onBeforeUnmount browser
          (fst (run browser px_or_percent_margins example_props
                  [Mounted; Intersection seen; ImgLoad] mounted_root)))
     = [CallDisconnect]
  /\ disconnects
       (snd (run browser px_or_percent_margins example_props
               [Mounted; Intersection seen; ImgLoad; BeforeUnmount]
               mounted_root)) = 2.
Proof.
  assert (Hpre : Forall (fun ev => quiet ev = true) ([] : list Event))
    by constructor.
  assert (Hlater : Forall (fun ev => quiet ev = true) [ImgLoad])
    by (repeat constructor).
  destruct (disconnect_again_on_unmount browser px_or_percent_margins
              {| has_IntersectionObserver := true |}
              example_props mounted_root [] seen [ImgLoad]
              eq_refl eq_refl eq_refl eq_refl)
    as (_ & _ & Hcalls & _ & _ & Htwice & _).
  split; [split; [reflexivity|split; [reflexivity|split;
                                       [reflexivity|split; assumption]]]|].
  split; [exact Hcalls|exact (Htwice Hpre Hlater)].
Defined.

(** ** Server and client *)

(** X15: the tree rendered on a server is the tree a browser with
    IntersectionObserver renders first, so the two agree at hydration;
    for an eagerly loaded image every runtime renders one tree, in every
    state.  A browser without IntersectionObserver mounts a lazy image at
    once, which the server's tree does not contain. *)
Theorem server_tree_matches_first_client_tree w digits props :
  (has_IntersectionObserver w = true ->
   render None digits props setup_state
   = render (Some w) digits props setup_state)
  /\ (lazyLoad props = false ->
      forall st st',
        render None digits props st = render (Some w) digits props st')
  /\ (has_IntersectionObserver w = false ->
      lazyLoad props = true ->
      vnode_at at_picture (render None digits props setup_state) = None
      /\ vnode_tag <$>
           vnode_at at_picture (render (Some w) digits props setup_state)
         = Some "picture").
Proof.
  split; [|split].
  - intros Hio.
    unfold render, placeholderImg, backgroundDiv, pictureImg,
      shouldAddImage, shouldShowImage.
    rewrite Hio. destruct (lazyLoad props); reflexivity.
  - intros Hlazy st st'.
    unfold render, placeholderImg, backgroundDiv, pictureImg,
      shouldAddImage, shouldShowImage.
    rewrite Hlazy. reflexivity.
  - intros Hio Hlazy.
    unfold render, at_picture, shouldAddImage; simpl.
    unfold vnode_child; simpl. rewrite Hio, Hlazy. split; reflexivity.
Qed.

(** ** Concrete runs of the further properties *)

(** A loaded image in a browser is shown and mounted. *)
Lemma shown_implies_mounted_witness :
  shouldShowImage browser example_props loaded_state = true
  /\ shouldAddImage browser example_props loaded_state = true.
Proof.
  split; [reflexivity|].
  apply (shown_implies_mounted browser example_props loaded_state).
  reflexivity.
Defined.

(** A mounted image survives a load and an unmount hook; a shown image
    survives a late intersection report. *)
Lemma mounted_and_shown_persist_witness :
  (shouldAddImage browser example_props in_view_state = true
   /\ shouldAddImage browser example_props
        (fst (run browser px_or_percent_margins example_props [ImgLoad; BeforeUnmount]
                in_view_state)) = true)
  /\ (shouldShowImage browser example_props loaded_state = true
      /\ shouldShowImage browser example_props
           (fst (run browser px_or_percent_margins example_props [Mounted; Intersection seen]
                   loaded_state)) = true).
Proof.
  split.
  - split; [reflexivity|].
    apply (proj1 (mounted_and_shown_persist browser px_or_percent_margins example_props
                    [ImgLoad; BeforeUnmount] in_view_state)).
    reflexivity.
  - split; [reflexivity|].
    apply (proj2 (mounted_and_shown_persist browser px_or_percent_margins example_props
                    [Mounted; Intersection seen] loaded_state)).
    reflexivity.
Defined.

(** The tree before and after the root is bound and observed. *)
Lemma render_depends_on_flags_only_witness :
  (inView setup_state = inView observing_state
   /\ loaded setup_state = loaded observing_state)
  /\ render browser no_digits example_props setup_state
     = render browser no_digits example_props observing_state.
Proof.
  split; [split; reflexivity|].
  apply (render_depends_on_flags_only browser no_digits example_props
           setup_state observing_state); reflexivity.
Defined.

(** A loaded image keeps its tree through mount, report and unmount. *)
Lemma render_final_after_load_witness :
  loaded loaded_state = true
  /\ render browser no_digits example_props
       (fst (run browser px_or_percent_margins example_props
               [Mounted; Intersection seen; BeforeUnmount] loaded_state))
     = render browser no_digits example_props loaded_state.
Proof.
  split; [reflexivity|].
  apply (render_final_after_load browser no_digits px_or_percent_margins example_props
           [Mounted; Intersection seen; BeforeUnmount] loaded_state).
  reflexivity.
Defined.

(** An 800 px wide image with aspect ratio 0. *)
Lemma zero_aspect_ratio_height_witness :
  (ImageData.height (data flat_props) = None
   /\ ImageData.aspectRatio (data flat_props) = S754_zero false
   /\ is_positive (ImageData.width (data flat_props)) = true)
  /\ height flat_props = VNumber (S754_infinity false)
  /\ svg no_digits flat_props = svg_markup "800" "Infinity".
Proof.
  split; [repeat split|].
  apply (zero_aspect_ratio_height no_digits flat_props false); reflexivity.
Defined.

(** Two qualifying reports and an unmount on an observed root: three
    calls of [disconnect]. *)
Lemma disconnect_calls_counted_witness :
  (browser = Some {| has_IntersectionObserver := true |}
   /\ is_Some (observer observing_state))
  /\ disconnects
       (snd (run browser px_or_percent_margins example_props
               [Intersection seen; ImgLoad; Intersection seen; BeforeUnmount]
               observing_state)) = 3.
Proof.
  assert (Hobs : is_Some (observer observing_state))
    by (eexists; reflexivity).
  split; [split; [reflexivity|exact Hobs]|].
  apply (proj2 (disconnect_calls_counted browser px_or_percent_margins example_props
                  [Intersection seen; ImgLoad; Intersection seen; BeforeUnmount]
                  observing_state)
           {| has_IntersectionObserver := true |} eq_refl eq_refl Hobs).
Defined.

(** A whole lifecycle in a browser without IntersectionObserver. *)
Lemma nothing_observed_without_support_witness :
  (supports_visibility_detection legacy_browser = false
   /\ observer setup_state = None)
  /\ snd (run legacy_browser px_or_percent_margins example_props
            [Patched (DomElement 0); Mounted; Intersection seen; ImgLoad;
             BeforeUnmount] setup_state) = []
  /\ inView (fst (run legacy_browser px_or_percent_margins example_props
                    [Patched (DomElement 0); Mounted; Intersection seen;
                     ImgLoad; BeforeUnmount] setup_state)) = false.
Proof.
  split; [split; reflexivity|].
  destruct (nothing_observed_without_support legacy_browser px_or_percent_margins example_props
              [Patched (DomElement 0); Mounted; Intersection seen; ImgLoad;
               BeforeUnmount] setup_state eq_refl eq_refl)
    as (Hcalls & _ & Hview).
  split; [exact Hcalls|exact Hview].
Defined.

(** Mount and a qualifying report in a browser. *)
Lemma inView_needs_observer_witness :
  (inView mounted_root = false
   /\ inView (fst (run browser px_or_percent_margins example_props [Mounted; Intersection seen]
                     mounted_root)) = true)
  /\ Exists (fun ev => is_qualifying ev = true) [Mounted; Intersection seen]
  /\ 1 <= disconnects
            (snd (run browser px_or_percent_margins example_props [Mounted; Intersection seen]
                    mounted_root)).
Proof.
  split; [split; reflexivity|].
  destruct (inView_needs_observer browser px_or_percent_margins example_props
              [Mounted; Intersection seen] mounted_root eq_refl eq_refl)
    as (Hq & _ & Hc).
  split; [exact Hq|exact Hc].
Defined.

(** The observer left by mount and a qualifying report. *)
Lemma observer_keeps_configured_options_witness :
  (observer mounted_root = None
   /\ observer (fst (run browser px_or_percent_margins example_props [Mounted; Intersection seen]
                       mounted_root))
      = Some {| io_init := configured_init example_props; io_targets := [] |})
  /\ io_init {| io_init := configured_init example_props; io_targets := [] |}
     = {| threshold := of_Z 0; rootMargin := "0px 0px 0px 0px" |}.
Proof.
  split; [split; reflexivity|].
  apply (observer_keeps_configured_options browser px_or_percent_margins example_props
           [Mounted; Intersection seen] mounted_root
           {| io_init := configured_init example_props; io_targets := [] |});
    reflexivity.
Defined.

(** Mounting an eagerly loaded image in a browser. *)
Lemma lifecycle_ignores_lazyLoad_witness :
  (browser = Some {| has_IntersectionObserver := true |}
   /\ options_accepted px_or_percent_margins example_props = true)
  /\ is_Some
       (observer
          (next (onMounted browser px_or_percent_margins
                   (with_lazyLoad false example_props) mounted_root)))
  /\ head (calls (onMounted browser px_or_percent_margins
                    (with_lazyLoad false example_props) mounted_root))
     = Some (CallNew (configured_init example_props)).
Proof.
  split; [split; reflexivity|].
  apply (proj2 (lifecycle_ignores_lazyLoad browser px_or_percent_margins
                  example_props false [] mounted_root)
           {| has_IntersectionObserver := true |} eq_refl eq_refl eq_refl).
Defined.

(** An intersection report with no entries, and a mount with a threshold
    of 2. *)
Lemma handler_exceptions_witness :
  (thrown (dispatch browser px_or_percent_margins example_props
             (Intersection []) observing_state) = Some TypeError
   /\ next (dispatch browser px_or_percent_margins example_props
              (Intersection []) observing_state) = observing_state)
  /\ (thrown (dispatch browser px_or_percent_margins
                (with_threshold (of_Z 2) example_props) Mounted mounted_root)
      = Some RangeError
      /\ next (dispatch browser px_or_percent_margins
                 (with_threshold (of_Z 2) example_props) Mounted mounted_root)
         = mounted_root).
Proof.
  split.
  - split; [reflexivity|].
    apply (handler_exceptions browser px_or_percent_margins example_props
             (Intersection []) observing_state TypeError eq_refl).
  - split; [reflexivity|].
    apply (handler_exceptions browser px_or_percent_margins
             (with_threshold (of_Z 2) example_props) Mounted mounted_root
             RangeError eq_refl).
Defined.

(** A lifecycle in a browser with a threshold of 2. *)
Lemma rejected_options_leave_no_observer_witness :
  (options_accepted px_or_percent_margins
     (with_threshold (of_Z 2) example_props) = false
   /\ observer mounted_root = None
   /\ supports_visibility_detection browser = true)
  /\ observer
       (fst (run browser px_or_percent_margins
               (with_threshold (of_Z 2) example_props)
               [Mounted; Intersection seen; BeforeUnmount] mounted_root))
     = None
  /\ disconnects
       (snd (run browser px_or_percent_margins
               (with_threshold (of_Z 2) example_props)
               [Mounted; Intersection seen; BeforeUnmount] mounted_root))
     = 0
  /\ is_Some
       (thrown (onMounted browser px_or_percent_margins
                  (with_threshold (of_Z 2) example_props) mounted_root)).
Proof.
  split; [repeat split|].
  destruct (rejected_options_leave_no_observer browser px_or_percent_margins
              (with_threshold (of_Z 2) example_props)
              [Mounted; Intersection seen; BeforeUnmount] mounted_root
              eq_refl eq_refl)
    as (Hobs & _ & Hcalls & Hthrown).
  split; [exact Hobs|split; [exact Hcalls|exact (Hthrown eq_refl)]].
Defined.

(** The example image on a server, in a browser and in a browser without
    IntersectionObserver. *)
Lemma server_tree_matches_first_client_tree_witness :
  (has_IntersectionObserver {| has_IntersectionObserver := true |} = true
   /\ render None no_digits example_props setup_state
      = render browser no_digits example_props setup_state)
  /\ (lazyLoad (with_lazyLoad false example_props) = false
      /\ render None no_digits (with_lazyLoad false example_props) setup_state
         = render browser no_digits (with_lazyLoad false example_props)
             loaded_state)
  /\ (has_IntersectionObserver {| has_IntersectionObserver := false |} = false
      /\ lazyLoad example_props = true
      /\ vnode_at at_picture (render None no_digits example_props setup_state)
         = None
      /\ vnode_tag <$>
           vnode_at at_picture
             (render legacy_browser no_digits example_props setup_state)
         = Some "picture").
Proof.
  split; [|split].
  - split; [reflexivity|].
    apply (proj1 (server_tree_matches_first_client_tree
                    {| has_IntersectionObserver := true |} no_digits
                    example_props)).
    reflexivity.
  - split; [reflexivity|].
    apply (proj1 (proj2 (server_tree_matches_first_client_tree
                           {| has_IntersectionObserver := true |} no_digits
                           (with_lazyLoad false example_props)))).
    reflexivity.
  - split; [reflexivity|split; [reflexivity|]].
    apply (proj2 (proj2 (server_tree_matches_first_client_tree
                           {| has_IntersectionObserver := false |} no_digits
                           example_props)));
      reflexivity.
Defined.

(** An observed root after a qualifying report and a load, and after an
    unmount. *)
Lemma observer_released_witness :
  (browser = Some {| has_IntersectionObserver := true |}
   /\ is_Some (observer observing_state)
   /\ is_qualifying (Intersection seen) || is_unmount (Intersection seen) = true
   /\ Forall (fun ev' => is_mount ev' = false) [ImgLoad])
  /\ released
       (fst (run browser px_or_percent_margins example_props [Intersection seen; ImgLoad]
               observing_state))
  /\ released (fst (run browser px_or_percent_margins example_props [BeforeUnmount] observing_state)).
Proof.
  assert (Hobs : is_Some (observer observing_state))
    by (eexists; reflexivity).
  assert (Hevs : Forall (fun ev' => is_mount ev' = false) [ImgLoad])
    by (repeat constructor).
  split; [repeat split; assumption|].
  split.
  - apply (observer_released browser px_or_percent_margins {| has_IntersectionObserver := true |}
             example_props (Intersection seen) [ImgLoad] observing_state
             eq_refl eq_refl Hobs eq_refl Hevs).
  - apply (observer_released browser px_or_percent_margins {| has_IntersectionObserver := true |}
             example_props BeforeUnmount [] observing_state
             eq_refl eq_refl Hobs eq_refl).
    constructor.
Defined.
